(** * GPT-webhook: the webhook server, embedded and verified

    The development follows [class WebhookServer] of the server's
    [index.ts]: the JavaScript values a request body is made of, exceptions
    and the console, the MongoDB driver calls the server makes, then the
    methods of the class in the order of the source, and last the properties
    of the ingestion pipeline.

    What lies outside the repository is modelled as its documentation
    describes it: Express hands the route the parsed body and sends body
    parser errors to the error middleware; the MongoDB driver may fail at
    any call, hands out fresh ObjectIds, and writes the identifier into the
    document it is given. *)

From Stdlib Require Import ZArith List Ascii String DecimalString Lia.
From stdpp Require Import base option list strings gmap.

Local Open Scope string_scope.
Local Open Scope Z_scope.
Local Set Warnings "-register-all".

(** ** JavaScript values *)

(** JSON numbers are IEEE doubles after [JSON.parse].  The server never
    computes with them: it tests them in [||] and prints them with
    [JSON.stringify], so a number type is anything that offers the two. *)
Class JSNumber (num : Type) := {
  num_truthy : num -> bool;
  num_to_string : num -> string;
  num_to_string_nonempty : forall n, num_to_string n <> ""
}.

Section Values.
Context {num : Type}.

(** What [req.body] and its fields can be: [undefined], and the values
    [JSON.parse] builds.  An object is the list of its own properties in
    insertion order. *)
Inductive value :=
| VUndefined
| VNull
| VBool (b : bool)
| VNum (n : num)
| VStr (s : string)
| VArr (elems : list value)
| VObj (props : list (string * value)).

End Values.
Global Arguments value : clear implicits.

(** A thrown JavaScript value: an [Error] instance (with its [message]) or
    something else. *)
Inductive Thrown :=
| ThrowError (name : string) (message : string)
| ThrowOther (description : string).

Definition TypeError (msg : string) : Thrown := ThrowError "TypeError" msg.
Definition SyntaxError (msg : string) : Thrown := ThrowError "SyntaxError" msg.

(** Result of evaluating an expression that may throw. *)
Inductive Completion (A : Type) :=
| Normal (a : A)
| Abrupt (t : Thrown).
Global Arguments Normal {A} a.
Global Arguments Abrupt {A} t.

Section JS.
Context {num : Type} `{!JSNumber num}.

(** ToBoolean. *)
Definition truthy (v : value num) : bool :=
  match v with
  | VUndefined | VNull => false
  | VBool b => b
  | VNum n => num_truthy n
  | VStr s => negb (String.eqb s "")
  | VArr _ | VObj _ => true
  end.

Definition truthy_string (s : option string) : bool :=
  match s with
  | Some s => negb (String.eqb s "")
  | None => false
  end.

Fixpoint own_property (props : list (string * value num)) (key : string)
  : option (value num) :=
  match props with
  | [] => None
  | (k, v) :: rest => if String.eqb k key then Some v else own_property rest key
  end.

Definition describe (v : value num) : string :=
  match v with
  | VUndefined => "undefined"
  | _ => "null"
  end.

(** [v.key] for the names the handler reads ([message], [text], [user],
    [userInfo]): reading a property of [undefined] or [null] throws a
    TypeError; an object answers with its own property, or [undefined];
    arrays and primitives have no property of these names, neither their
    own nor on their prototypes. *)
Definition get_property (v : value num) (key : string) : Completion (value num) :=
  match v with
  | VUndefined | VNull =>
      Abrupt (TypeError ("Cannot read properties of " ++ describe v
                           ++ " (reading '" ++ key ++ "')"))
  | VObj props =>
      Normal (match own_property props key with Some x => x | None => VUndefined end)
  | VBool _ | VNum _ | VStr _ | VArr _ => Normal VUndefined
  end.

(** *** JSON.stringify *)

Definition hex_digit (n : N) : ascii :=
  match n with
  | 0 => "0" | 1 => "1" | 2 => "2" | 3 => "3" | 4 => "4" | 5 => "5"
  | 6 => "6" | 7 => "7" | 8 => "8" | 9 => "9" | 10 => "a" | 11 => "b"
  | 12 => "c" | 13 => "d" | 14 => "e" | _ => "f"
  end%N%char.

(** The double quote, character 34. *)
Definition dquote : string := String (ascii_of_N 34) "".

(** One character of a quoted JSON string.  Strings are UTF-8 bytes; bytes
    from 0x20 up, the quote and the backslash apart, are kept. *)
Definition escape_char (c : ascii) : string :=
  let n := N_of_ascii c in
  if (n =? 34)%N then "\" ++ dquote
  else if (n =? 92)%N then "\\"
  else if (n =? 8)%N then "\b"
  else if (n =? 9)%N then "\t"
  else if (n =? 10)%N then "\n"
  else if (n =? 12)%N then "\f"
  else if (n =? 13)%N then "\r"
  else if (n <? 32)%N then
    "\u00" ++ String (hex_digit (n / 16)) (String (hex_digit (n mod 16)) "")
  else String c "".

Fixpoint escape (s : string) : string :=
  match s with
  | "" => ""
  | String c rest => escape_char c ++ escape rest
  end.

Definition quote (s : string) : string := dquote ++ escape s ++ dquote.

Fixpoint join (sep : string) (parts : list string) : string :=
  match parts with
  | [] => ""
  | [p] => p
  | p :: rest => p ++ sep ++ join sep rest
  end.

(** [JSON.stringify(v)] with no replacer and no indentation; [None] is the
    [undefined] it returns for [undefined].  Inside an array [undefined]
    prints as [null], inside an object the property is left out. *)
Fixpoint stringify (v : value num) : option string :=
  match v with
  | VUndefined => None
  | VNull => Some "null"
  | VBool true => Some "true"
  | VBool false => Some "false"
  | VNum n => Some (num_to_string n)
  | VStr s => Some (quote s)
  | VArr elems =>
      Some ("[" ++ join ","
              (List.map (fun e => match stringify e with
                                  | Some s => s
                                  | None => "null"
                                  end) elems) ++ "]")
  | VObj props =>
      Some ("{" ++ join ","
              (List.flat_map (fun kv => match stringify (snd kv) with
                                        | Some s => [quote (fst kv) ++ ":" ++ s]
                                        | None => []
                                        end) props) ++ "}")
  end.

Definition JSON_stringify (v : value num) : value num :=
  match stringify v with
  | Some s => VStr s
  | None => VUndefined
  end.

End JS.

(** ** The connection string *)

(** [[^/?]]: any character but the slash and the question mark. *)
Definition name_char (c : ascii) : bool :=
  negb (Ascii.eqb c "/") && negb (Ascii.eqb c "?").

(** The longest run of [[^/?]] at the head of [s], and what follows it. *)
Fixpoint span_name (s : string) : string * string :=
  match s with
  | "" => ("", "")
  | String c rest =>
      if name_char c
      then let (name, tail) := span_name rest in (String c name, tail)
      else ("", s)
  end.

(** [([^/?]+)(\?|$)] tried right after a slash.  The group is greedy; a
    shorter run is followed by a character of the run, which is neither the
    question mark nor the end, so backtracking into the group never helps. *)
Definition match_after_slash (s : string) : option string :=
  let (name, tail) := span_name s in
  match name, tail with
  | "", _ => None
  | _, "" => Some name
  | _, String c _ => if Ascii.eqb c "?" then Some name else None
  end.

(** [url.match(/\/([^/?]+)(\?|$)/)], group 1 of the leftmost match. *)
Fixpoint match_database (url : string) : option string :=
  match url with
  | "" => None
  | String c rest =>
      if Ascii.eqb c "/"
      then match match_after_slash rest with
           | Some name => Some name
           | None => match_database rest
           end
      else match_database rest
  end.

(** [extractDatabaseName]: [match ? match[1] : null]; [String.prototype.match]
    does not throw on a string, so the [catch] is never entered. *)
Definition extractDatabaseName (url : string) : option string :=
  match match_database url with
  | Some name => Some name
  | None => None
  end.

(** [extractDatabaseName(url) || 'shared-db']. *)
Definition resolveDatabaseName (url : string) : string :=
  match extractDatabaseName url with
  | Some name => if String.eqb name "" then "shared-db" else name
  | None => "shared-db"
  end.

(** ** Requests, records and the store *)

Definition Date := Z.
Definition ObjectId := N.

Record MongoOptions := { auth : option (string * string) }.
Record MongoClient := { client_url : string; client_options : MongoOptions }.
Record Db := { databaseName : string }.
Record Collection := { collection_db : string; collectionName : string }.

(** An index specification, [{ timestamp: -1 }] or [{ 'userInfo.id': 1 }]. *)
Definition IndexSpec := list (string * Z).

Record Env := {
  MONGO_URL : option string;
  MONGO_INITDB_ROOT_USERNAME : option string;
  MONGO_INITDB_ROOT_PASSWORD : option string;
  NODE_ENV : option string
}.

Inductive Stream := Stdout | Stderr.

Section Server.
Context {num : Type} `{!JSNumber num}.

Record Request := {
  req_headers : list (string * string);
  req_body : value num;
  req_query : value num;
  req_method : string;
  req_url : string;
  req_ip : option string
}.

Record FullRequest := {
  fr_headers : list (string * string);
  fr_body : value num;
  fr_query : value num;
  fr_method : string;
  fr_url : string
}.

(** [interface WebhookRequest]. *)
Record WebhookRequest := {
  _id : option ObjectId;
  message : value num;
  userInfo : value num;
  timestamp : Date;
  fullRequest : FullRequest
}.

Definition with_id (r : WebhookRequest) (id : ObjectId) : WebhookRequest :=
  {| _id := Some id; message := message r; userInfo := userInfo r;
     timestamp := timestamp r; fullRequest := fullRequest r |}.

(** A collection on the MongoDB server: its indexes (the default one on
    [_id] is left out) and its documents, oldest first. *)
Record CollectionData := {
  indexes : list IndexSpec;
  documents : list WebhookRequest
}.

Inductive DriverCall :=
| NewMongoClient (url : string) (options : MongoOptions)
| Connect
| ListCollections (d : Db) (name : string)
| CreateCollection (d : Db) (name : string)
| CreateIndex (c : Collection) (spec : IndexSpec)
| InsertOne (c : Collection) (doc : WebhookRequest)
| Close.

Inductive LogArg :=
| LText (s : string)
| LPretty (v : value num)
| LHeaders (h : list (string * string))
| LThrown (t : Thrown)
| LId (id : ObjectId).

Record LogEntry := { log_stream : Stream; log_args : list LogArg }.

(** Everything outside the server object: the environment variables, the
    console, the clock [new Date()] reads, the MongoDB server (collections
    by database and name), the next ObjectId the driver hands out, the calls
    made to the driver so far, and for the calls to come whether each one
    fails ([Some e]: it throws or rejects with [e]); past the end of the
    schedule every call succeeds. *)
Record World := {
  env : Env;
  console : list LogEntry;
  clock : Date;
  mongo : gmap (string * string) CollectionData;
  next_id : ObjectId;
  driver_calls : list DriverCall;
  schedule : list (option Thrown)
}.

(** The fields of [class WebhookServer] ([app] and [port] only matter to
    [listen]). *)
Record WebhookServer := {
  mongoUrl : option string;
  mongoUsername : option string;
  mongoPassword : option string;
  db : option Db;
  client : option MongoClient;
  webhooksCollection : option Collection
}.

Definition appPrefix : string := "gpt-webhook".

(** A reference to an object of the process: its position in the heap. *)
Definition Ref := nat.

(** The server object, the outside world, and the objects the handlers have
    allocated (the request records), which the driver is handed by
    reference. *)
Record State := {
  this : WebhookServer;
  world : World;
  heap : list WebhookRequest
}.

End Server.
Global Arguments Request : clear implicits.
Global Arguments FullRequest : clear implicits.
Global Arguments WebhookRequest : clear implicits.
Global Arguments CollectionData : clear implicits.
Global Arguments DriverCall : clear implicits.
Global Arguments LogArg : clear implicits.
Global Arguments LogEntry : clear implicits.
Global Arguments World : clear implicits.
Global Arguments State : clear implicits.

(** ** Effects: exceptions over a state *)

Section Monad.
Context {num : Type}.

(** A computation of the server: it runs on a state and ends normally with
    a result or abruptly with a thrown value, in a new state.  [await] is
    sequencing: requests are handled one after the other. *)
Definition M (A : Type) : Type := State num -> Completion A * State num.

Definition ret {A} (a : A) : M A := fun st => (Normal a, st).

Definition bind {A B} (m : M A) (k : A -> M B) : M B :=
  fun st =>
    match m st with
    | (Normal a, st') => k a st'
    | (Abrupt t, st') => (Abrupt t, st')
    end.

Definition throw {A} (t : Thrown) : M A := fun st => (Abrupt t, st).

Definition lift {A} (c : Completion A) : M A := fun st => (c, st).

(** [try { body } catch (e) { handler }]. *)
Definition try_catch {A} (body : M A) (handler : Thrown -> M A) : M A :=
  fun st =>
    match body st with
    | (Normal a, st') => (Normal a, st')
    | (Abrupt t, st') => handler t st'
    end.

Definition get_this : M WebhookServer := fun st => (Normal (this st), st).
Definition get_world : M (World num) := fun st => (Normal (world st), st).

Definition get_heap : M (list (WebhookRequest num)) :=
  fun st => (Normal (heap st), st).

Definition put_this (srv : WebhookServer) : M unit :=
  fun st => (Normal tt, {| this := srv; world := world st; heap := heap st |}).
Definition put_world (w : World num) : M unit :=
  fun st => (Normal tt, {| this := this st; world := w; heap := heap st |}).
Definition put_heap (h : list (WebhookRequest num)) : M unit :=
  fun st => (Normal tt, {| this := this st; world := world st; heap := h |}).

End Monad.

Declare Scope js_scope.
Delimit Scope js_scope with js.
Notation "x <- m ;; k" := (bind m (fun x => k))
  (at level 100, m at next level, k at level 200, right associativity) : js_scope.
Notation "m ;; k" := (bind m (fun _ => k))
  (at level 100, k at level 200, right associativity) : js_scope.
Local Open Scope js_scope.

Section Runtime.
Context {num : Type} `{!JSNumber num}.

(** *** The server object *)

Definition set_db (d : option Db) : M (num:=num) unit :=
  srv <- get_this ;;
  put_this {| mongoUrl := mongoUrl srv; mongoUsername := mongoUsername srv;
              mongoPassword := mongoPassword srv; db := d;
              client := client srv;
              webhooksCollection := webhooksCollection srv |}.

Definition set_client (c : option MongoClient) : M (num:=num) unit :=
  srv <- get_this ;;
  put_this {| mongoUrl := mongoUrl srv; mongoUsername := mongoUsername srv;
              mongoPassword := mongoPassword srv; db := db srv;
              client := c;
              webhooksCollection := webhooksCollection srv |}.

Definition set_webhooksCollection (c : option Collection) : M (num:=num) unit :=
  srv <- get_this ;;
  put_this {| mongoUrl := mongoUrl srv; mongoUsername := mongoUsername srv;
              mongoPassword := mongoPassword srv; db := db srv;
              client := client srv;
              webhooksCollection := c |}.

(** *** Objects *)

(** An object literal: a new object on the heap. *)
Definition new_record (r : WebhookRequest num) : M (num:=num) Ref :=
  h <- get_heap ;;
  put_heap (h ++ [r]) ;;
  ret (length h).

(** Reading the object behind a reference. *)
Definition deref (ref : Ref) : M (num:=num) (WebhookRequest num) :=
  h <- get_heap ;;
  match h !! ref with
  | Some r => ret r
  | None => throw (ThrowError "ReferenceError" "no such object")
  end.

(** [record._id = id]. *)
Definition assign_id (ref : Ref) (id : ObjectId) : M (num:=num) unit :=
  h <- get_heap ;;
  match h !! ref with
  | Some r => put_heap (<[ref := with_id r id]> h)
  | None => throw (ThrowError "ReferenceError" "no such object")
  end.

(** *** The console and the clock *)

Definition emit (s : Stream) (args : list (LogArg num)) : M (num:=num) unit :=
  w <- get_world ;;
  put_world {| env := env w;
               console := console w ++ [{| log_stream := s; log_args := args |}];
               clock := clock w; mongo := mongo w; next_id := next_id w;
               driver_calls := driver_calls w; schedule := schedule w |}.

Definition console_log := emit Stdout.
Definition console_error := emit Stderr.

(** [new Date()]. *)
Definition new_Date : M (num:=num) Date :=
  w <- get_world ;; ret (clock w).

(** *** The MongoDB driver *)

(** Every call is recorded and consumes one entry of the schedule, which
    says whether the call fails before it has any effect. *)
Definition driver (call : DriverCall num) : M (num:=num) unit :=
  w <- get_world ;;
  put_world {| env := env w; console := console w; clock := clock w;
               mongo := mongo w; next_id := next_id w;
               driver_calls := driver_calls w ++ [call];
               schedule := tail (schedule w) |} ;;
  match schedule w with
  | Some e :: _ => throw e
  | _ => ret tt
  end.

Definition set_mongo (m : gmap (string * string) (CollectionData num))
  : M (num:=num) unit :=
  w <- get_world ;;
  put_world {| env := env w; console := console w; clock := clock w;
               mongo := m; next_id := next_id w;
               driver_calls := driver_calls w; schedule := schedule w |}.

Definition fresh_id : M (num:=num) ObjectId :=
  w <- get_world ;;
  put_world {| env := env w; console := console w; clock := clock w;
               mongo := mongo w; next_id := N.succ (next_id w);
               driver_calls := driver_calls w; schedule := schedule w |} ;;
  ret (next_id w).

Definition key_of (c : Collection) : string * string :=
  (collection_db c, collectionName c).

Definition empty_collection : CollectionData num :=
  {| indexes := []; documents := [] |}.

(** The data of a collection; one that does not exist yet reads as empty
    (MongoDB creates a collection on the first write to it). *)
Definition data_of (m : gmap (string * string) (CollectionData num))
    (c : Collection) : CollectionData num :=
  match m !! key_of c with
  | Some d => d
  | None => empty_collection
  end.

(** [new MongoClient(url, options)]. *)
Definition new_MongoClient (url : string) (options : MongoOptions)
  : M (num:=num) MongoClient :=
  driver (NewMongoClient url options) ;;
  ret {| client_url := url; client_options := options |}.

(** [client.connect()]. *)
Definition client_connect : M (num:=num) unit := driver Connect.

(** [client.close()]. *)
Definition client_close : M (num:=num) unit := driver Close.

(** [client.db(name)] and [db.collection(name)] only build handles.  The
    driver first checks the database name and throws on one it refuses; that
    check is not part of [client_db]: the names that pass it are described by
    [database_name_accepted] below. *)
Definition client_db (name : string) : Db := {| databaseName := name |}.
Definition db_collection (d : Db) (name : string) : Collection :=
  {| collection_db := databaseName d; collectionName := name |}.

(** [db.listCollections({ name }).toArray()]. *)
Definition listCollections (d : Db) (name : string) : M (num:=num) (list string) :=
  driver (ListCollections d name) ;;
  w <- get_world ;;
  ret (match mongo w !! (databaseName d, name) with
       | Some _ => [name]
       | None => []
       end).

(** [db.createCollection(name)]: the server refuses a name that exists. *)
Definition createCollection (d : Db) (name : string) : M (num:=num) unit :=
  driver (CreateCollection d name) ;;
  w <- get_world ;;
  match mongo w !! (databaseName d, name) with
  | Some _ => throw (ThrowError "MongoServerError" "Collection already exists")
  | None => set_mongo (<[(databaseName d, name) := empty_collection]> (mongo w))
  end.

Definition spec_eqb (a b : IndexSpec) : bool :=
  bool_decide (a = b).

(** [collection.createIndex(spec)]: an index that exists is left alone. *)
Definition createIndex (c : Collection) (spec : IndexSpec) : M (num:=num) unit :=
  driver (CreateIndex c spec) ;;
  w <- get_world ;;
  let d := data_of (mongo w) c in
  if existsb (spec_eqb spec) (indexes d)
  then set_mongo (<[key_of c := d]> (mongo w))
  else set_mongo (<[key_of c := {| indexes := indexes d ++ [spec];
                                   documents := documents d |}]> (mongo w)).

(** [collection.insertOne(doc)].  A document without [_id] gets a fresh
    ObjectId from the driver, which writes it into the document it was
    handed (the driver's documentation: one will be added by the driver,
    mutating the document) when the operation is built, before anything is
    sent; then the insert is sent, and when it succeeds the server has
    appended the document.  The store of the model keeps the document as the
    record stands in memory; the conversion to BSON on the way, which stores
    a field that is [undefined] as [null], is left out; in a record of
    [handleWebhook] it bears on the [ip] and [userAgent] of a synthesized
    [userInfo], the only fields that can be [undefined]. *)
Definition insertOne (c : Collection) (ref : Ref) : M (num:=num) ObjectId :=
  doc <- deref ref ;;
  id <- match _id doc with
        | Some id => ret id
        | None => id <- fresh_id ;; assign_id ref id ;; ret id
        end ;;
  doc <- deref ref ;;
  driver (InsertOne c doc) ;;
  w <- get_world ;;
  let d := data_of (mongo w) c in
  set_mongo (<[key_of c := {| indexes := indexes d;
                              documents := documents d ++ [doc] |}]>
               (mongo w)) ;;
  ret id.

End Runtime.

(** ** Responses *)

Inductive ResBody :=
| WebhookAck (success : bool) (message : string) (timestamp : Date)
    (id : option ObjectId)
| WebhookFailure (success : bool) (message : string) (error : option string)
| HealthReport (status : string) (timestamp : Date) (database : string)
| NotFound (error : string).

(** What [res.status(code).json(body)] sends.  A field whose value is
    [undefined] is not serialized: it is [None] here. *)
Record Response := { statusCode : Z; body : ResBody }.

Definition res_success (r : Response) : option bool :=
  match body r with
  | WebhookAck s _ _ _ | WebhookFailure s _ _ => Some s
  | _ => None
  end.

Definition res_message (r : Response) : option string :=
  match body r with
  | WebhookAck _ m _ _ | WebhookFailure _ m _ => Some m
  | _ => None
  end.

Definition res_timestamp (r : Response) : option Date :=
  match body r with
  | WebhookAck _ _ t _ | HealthReport _ t _ => Some t
  | _ => None
  end.

Definition res_id (r : Response) : option ObjectId :=
  match body r with
  | WebhookAck _ _ _ id => id
  | _ => None
  end.

Definition res_error (r : Response) : option string :=
  match body r with
  | WebhookFailure _ _ e => e
  | NotFound e => Some e
  | _ => None
  end.

Definition res_database (r : Response) : option string :=
  match body r with
  | HealthReport _ _ d => Some d
  | _ => None
  end.

(** ** The methods of [WebhookServer] *)

Section Methods.
Context {num : Type} `{!JSNumber num}.

(** The constructor reads the environment; [db], [client] and
    [webhooksCollection] start as [null]. *)
Definition constructor (e : Env) : WebhookServer :=
  {| mongoUrl := MONGO_URL e;
     mongoUsername := MONGO_INITDB_ROOT_USERNAME e;
     mongoPassword := MONGO_INITDB_ROOT_PASSWORD e;
     db := None; client := None; webhooksCollection := None |}.

Definition lower (c : ascii) : ascii :=
  let n := N_of_ascii c in
  if ((65 <=? n) && (n <=? 90))%N then ascii_of_N (n + 32) else c.

Fixpoint lowercase (s : string) : string :=
  match s with
  | "" => ""
  | String c rest => String (lower c) (lowercase rest)
  end.

Fixpoint header (hs : list (string * string)) (name : string) : option string :=
  match hs with
  | [] => None
  | (k, v) :: rest => if String.eqb k name then Some v else header rest name
  end.

(** [req.get(name)]: header names are matched in lower case. *)
Definition req_get (req : Request num) (name : string) : option string :=
  header (req_headers req) (lowercase name).

Definition string_or_undefined (s : option string) : value num :=
  match s with
  | Some s => VStr s
  | None => VUndefined
  end.

(** [a || b]: [b] is evaluated only when [a] is falsy. *)
Definition js_or (a b : M (num:=num) (value num)) : M (num:=num) (value num) :=
  x <- a ;; if truthy x then ret x else b.

(** [webhookData.message || webhookData.text || JSON.stringify(webhookData)]. *)
Definition derive_message (webhookData : value num) : M (num:=num) (value num) :=
  js_or (lift (get_property webhookData "message"))
    (js_or (lift (get_property webhookData "text"))
       (ret (JSON_stringify webhookData))).

(** [webhookData.user || webhookData.userInfo || { ip, userAgent }]. *)
Definition derive_userInfo (req : Request num) (webhookData : value num)
  : M (num:=num) (value num) :=
  js_or (lift (get_property webhookData "user"))
    (js_or (lift (get_property webhookData "userInfo"))
       (ret (VObj [("ip", string_or_undefined (req_ip req));
                   ("userAgent", string_or_undefined (req_get req "User-Agent"))]))).

(** [handleWebhook], lines 78-135. *)
Definition handleWebhook (req : Request num) : M (num:=num) Response :=
  try_catch
    (console_log [LText "=== Webhook Received ==="] ;;
     console_log [LText "Headers:"; LHeaders (req_headers req)] ;;
     console_log [LText "Body:"; LPretty (req_body req)] ;;
     console_log [LText "Query:"; LPretty (req_query req)] ;;
     console_log [LText "========================"] ;;
     let webhookData := req_body req in
     message <- derive_message webhookData ;;
     userInfo <- derive_userInfo req webhookData ;;
     now <- new_Date ;;
     requestRecord <-
       new_record
         {| _id := None; message := message; userInfo := userInfo;
            timestamp := now;
            fullRequest := {| fr_headers := req_headers req;
                              fr_body := req_body req;
                              fr_query := req_query req;
                              fr_method := req_method req;
                              fr_url := req_url req |} |} ;;
     srv <- get_this ;;
     match webhooksCollection srv with
     | Some collection =>
         try_catch
           (insertedId <- insertOne collection requestRecord ;;
            console_log [LText "Webhook saved to MongoDB with ID:";
                         LId insertedId] ;;
            assign_id requestRecord insertedId)
           (fun dbError =>
              console_error [LText "Failed to save to MongoDB:";
                             LThrown dbError])
     | None =>
         console_log [LText "MongoDB not available, webhook data logged only"]
     end ;;
     sent <- deref requestRecord ;;
     ret {| statusCode := 200;
            body := WebhookAck true "Webhook received and processed"
                      (timestamp sent) (_id sent) |})
    (fun error =>
       console_error [LText "Error processing webhook:"; LThrown error] ;;
       ret {| statusCode := 500;
              body := WebhookFailure false "Error processing webhook"
                        (Some (match error with
                               | ThrowError _ msg => msg
                               | ThrowOther _ => "Unknown error"
                               end)) |}).

(** [error.message]; [undefined] on a thrown value that is no Error. *)
Definition error_message (error : Thrown) : option string :=
  match error with
  | ThrowError _ msg => Some msg
  | ThrowOther _ => None
  end.

Definition string_is (s : option string) (lit : string) : bool :=
  match s with
  | Some s => String.eqb s lit
  | None => false
  end.

(** [errorHandler], lines 137-144. *)
Definition errorHandler (error : Thrown) : M (num:=num) Response :=
  console_error [LText "Unhandled error:"; LThrown error] ;;
  w <- get_world ;;
  ret {| statusCode := 500;
         body := WebhookFailure false "Internal server error"
                   (if string_is (NODE_ENV (env w)) "development"
                    then error_message error
                    else Some "Something went wrong") |}.

(** [initializeCollections], lines 193-220. *)
Definition initializeCollections : M (num:=num) unit :=
  srv <- get_this ;;
  match db srv with
  | None => ret tt
  | Some d =>
      try_catch
        (let collectionName := appPrefix ++ "-requests" in
         collections <- listCollections d collectionName ;;
         if (length collections =? 0)%nat then
           createCollection d collectionName ;;
           console_log [LText ("Created collection: " ++ collectionName)] ;;
           set_webhooksCollection (Some (db_collection d collectionName)) ;;
           createIndex (db_collection d collectionName) [("timestamp", -1)] ;;
           createIndex (db_collection d collectionName) [("userInfo.id", 1)] ;;
           console_log [LText ("Created indexes for collection: " ++ collectionName)]
         else
           console_log [LText ("Collection already exists: " ++ collectionName)] ;;
           set_webhooksCollection (Some (db_collection d collectionName)))
        (fun error =>
           console_error [LText "Failed to initialize collections:"; LThrown error] ;;
           throw error)
  end.

(** The connection options of lines 155-164. *)
Definition mongoOptions (srv : WebhookServer) : M (num:=num) MongoOptions :=
  if truthy_string (mongoUsername srv) && truthy_string (mongoPassword srv)
  then
    console_log [LText "Using MongoDB authentication"] ;;
    ret {| auth := match mongoUsername srv, mongoPassword srv with
                   | Some u, Some p => Some (u, p)
                   | _, _ => None
                   end |}
  else ret {| auth := None |}.

(** [connectToMongoDB], lines 146-181. *)
Definition connectToMongoDB : M (num:=num) unit :=
  srv <- get_this ;;
  match mongoUrl srv with
  | Some url =>
      if String.eqb url "" then
        console_log [LText "No MONGO_URL provided, running without database persistence"]
      else
        try_catch
          (console_log [LText "Connecting to MongoDB..."] ;;
           options <- mongoOptions srv ;;
           c <- new_MongoClient url options ;;
           set_client (Some c) ;;
           client_connect ;;
           let dbName := resolveDatabaseName url in
           set_db (Some (client_db dbName)) ;;
           initializeCollections ;;
           console_log [LText ("Successfully connected to MongoDB database: " ++ dbName)])
          (fun error =>
             console_error [LText "Failed to connect to MongoDB:"; LThrown error] ;;
             console_log [LText "Continuing without database persistence..."])
  | None =>
      console_log [LText "No MONGO_URL provided, running without database persistence"]
  end.

(** [shutdown], lines 245-258: the result is the code given to
    [process.exit]. *)
Definition shutdown : M (num:=num) Z :=
  console_log [LText "Shutting down server..."] ;;
  srv <- get_this ;;
  match client srv with
  | Some _ =>
      try_catch
        (client_close ;; console_log [LText "MongoDB connection closed"])
        (fun error =>
           console_error [LText "Error closing MongoDB connection:"; LThrown error])
  | None => ret tt
  end ;;
  ret 0.

(** The [/health] route, lines 61-67. *)
Definition health : M (num:=num) Response :=
  now <- new_Date ;;
  srv <- get_this ;;
  ret {| statusCode := 200;
         body := HealthReport "OK" now
                   (match db srv with
                    | Some _ => "connected"
                    | None => "not connected"
                    end) |}.

(** The last middleware, lines 73-75. *)
Definition notFound : M (num:=num) Response :=
  ret {| statusCode := 404; body := NotFound "Endpoint not found" |}.

End Methods.

(** ** The application: middleware, then routes *)

Section Application.
Context {num : Type} `{!JSNumber num}.

(** The body of an incoming request as the JSON parser meets it: none, a
    JSON text (given by the value it denotes), or bytes that are no JSON
    text.  [JsonText] and [Malformed] stand for a body sent as
    [application/json] and within the limit of the parser; a body over the
    limit, or of another media type, has no constructor here. *)
Inductive RawBody :=
| NoBody
| JsonText (v : value num)
| Malformed.

Record HttpRequest := {
  http_method : string;
  http_path : string;
  http_headers : list (string * string);
  http_query : value num;
  http_ip : option string;
  http_body : RawBody
}.

(** What [req.body] is when no parser has read a body: the empty object up
    to Express 4, [undefined] from Express 5 on. *)
Variable unparsed : value num.

(** [express.json({ limit: '10mb' })].  The [strict] option is left at its
    default: only a text whose value is an object or an array is accepted,
    any other text fails like a text that is no JSON. *)
Definition express_json (raw : RawBody) : Completion (value num) :=
  match raw with
  | NoBody => Normal unparsed
  | JsonText (VObj props) => Normal (VObj props)
  | JsonText (VArr elems) => Normal (VArr elems)
  | JsonText _ => Abrupt (SyntaxError "Unexpected token in JSON at position 0")
  | Malformed => Abrupt (SyntaxError "Unexpected token in JSON")
  end.

Definition to_request (r : HttpRequest) (parsed : value num) : Request num :=
  {| req_headers := http_headers r; req_body := parsed;
     req_query := http_query r; req_method := http_method r;
     req_url := http_path r; req_ip := http_ip r |}.

(** [setupMiddleware] then [setupRoutes]: an error of the body parser goes
    to [errorHandler], which stands after the parsers and before the routes;
    otherwise the first matching route answers.  The middleware that only
    sets headers or logs ([helmet], [cors], [morgan]) and the parser of
    url-encoded forms are left out, and method and path are compared as they
    stand: a request that Express routes by ignoring case or a trailing
    slash, and an OPTIONS request, which [cors] answers itself, are outside
    this definition. *)
Definition app (r : HttpRequest) : M (num:=num) Response :=
  match express_json (http_body r) with
  | Abrupt error => errorHandler error
  | Normal parsed =>
      if String.eqb (http_method r) "GET" && String.eqb (http_path r) "/health"
      then health
      else if String.eqb (http_method r) "POST"
              && String.eqb (http_path r) "/nahui-gpt/income"
      then handleWebhook (to_request r parsed)
      else notFound
  end.

(** The clock moves between two requests. *)
Definition set_clock (t : Date) : M (num:=num) unit :=
  w <- get_world ;;
  put_world {| env := env w; console := console w; clock := t;
               mongo := mongo w; next_id := next_id w;
               driver_calls := driver_calls w; schedule := schedule w |}.

End Application.
Global Arguments RawBody : clear implicits.
Global Arguments HttpRequest : clear implicits.

(** ** The first version of the server, [src/index.ts] *)

(** It differs from the class above in [connectToMongoDB] alone: no
    credentials, a fixed database and a fixed collection, no indexes. *)
Module SrcIndex.
Section Methods.
Context {num : Type} `{!JSNumber num}.

(** [connectToMongoDB], lines 141-158 of [src/index.ts]. *)
Definition connectToMongoDB : M (num:=num) unit :=
  srv <- get_this ;;
  match mongoUrl srv with
  | Some url =>
      if String.eqb url "" then
        console_log [LText "No MONGO_URL provided, running without database persistence"]
      else
        try_catch
          (console_log [LText "Connecting to MongoDB..."] ;;
           c <- new_MongoClient url {| auth := None |} ;;
           set_client (Some c) ;;
           client_connect ;;
           set_db (Some (client_db "webhook-server")) ;;
           set_webhooksCollection
             (Some (db_collection (client_db "webhook-server") "webhooks")) ;;
           console_log [LText "Successfully connected to MongoDB"])
          (fun error =>
             console_error [LText "Failed to connect to MongoDB:"; LThrown error] ;;
             console_log [LText "Continuing without database persistence..."])
  | None =>
      console_log [LText "No MONGO_URL provided, running without database persistence"]
  end.

End Methods.
End SrcIndex.

(** ** Integers as an instance of numbers, for concrete runs *)

Definition Z_to_string (z : Z) : string := NilZero.string_of_int (Z.to_int z).

Lemma Z_to_string_nonempty (z : Z) : Z_to_string z <> "".
Proof.
  unfold Z_to_string.
  destruct (Z.to_int z) as [u | u]; simpl; [| discriminate].
  unfold NilZero.string_of_uint. destruct u; simpl; discriminate.
Qed.

#[export] Instance Z_JSNumber : JSNumber Z := {|
  num_truthy z := negb (z =? 0);
  num_to_string := Z_to_string;
  num_to_string_nonempty := Z_to_string_nonempty
|}.

(** ** Specification vocabulary *)

Local Open Scope list_scope.

Section Vocabulary.
Context {num : Type} `{!JSNumber num}.

(** A body whose properties can be read: anything but [undefined] and
    [null]. *)
Definition readable (v : value num) : bool :=
  match v with
  | VUndefined | VNull => false
  | _ => true
  end.

(** What the JSON body parser hands to the routes. *)
Definition object_or_array (v : value num) : bool :=
  match v with
  | VObj _ | VArr _ => true
  | _ => false
  end.

(** The field [key] of a payload, [undefined] when it has none. *)
Definition field (v : value num) (key : string) : value num :=
  match v with
  | VObj props =>
      match own_property props key with Some x => x | None => VUndefined end
  | _ => VUndefined
  end.

(** The payload has a field [key]. *)
Definition present (v : value num) (key : string) : bool :=
  match v with
  | VObj props =>
      match own_property props key with Some _ => true | None => false end
  | _ => false
  end.

(** The derived message in the words of the specification: the [message]
    field if present, else the [text] field if present, else the serialized
    payload. *)
Definition first_present_message (payload : value num) : value num :=
  if present payload "message" then field payload "message"
  else if present payload "text" then field payload "text"
  else JSON_stringify payload.

(** The same with the test the code makes: a field counts when it is
    truthy. *)
Definition first_truthy_message (payload : value num) : value num :=
  if truthy (field payload "message") then field payload "message"
  else if truthy (field payload "text") then field payload "text"
  else JSON_stringify payload.

Definition first_truthy_userInfo (req : Request num) : value num :=
  if truthy (field (req_body req) "user") then field (req_body req) "user"
  else if truthy (field (req_body req) "userInfo")
       then field (req_body req) "userInfo"
  else VObj [("ip", string_or_undefined (req_ip req));
             ("userAgent", string_or_undefined (req_get req "User-Agent"))].

(** The WebhookEvent of a request received at [now], before it is stored. *)
Definition event_of (req : Request num) (now : Date) : WebhookRequest num :=
  {| _id := None;
     message := first_truthy_message (req_body req);
     userInfo := first_truthy_userInfo req;
     timestamp := now;
     fullRequest := {| fr_headers := req_headers req; fr_body := req_body req;
                       fr_query := req_query req; fr_method := req_method req;
                       fr_url := req_url req |} |}.

(** The acknowledgement of [handleWebhook]. *)
Definition acknowledgement (now : Date) (id : option ObjectId) : Response :=
  {| statusCode := 200;
     body := WebhookAck true "Webhook received and processed" now id |}.

(** The next driver call fails with [e], or succeeds. *)
Definition next_call (st : State num) : option Thrown :=
  hd None (schedule (world st)).

(** No driver call of the schedule fails. *)
Definition calm (sch : list (option Thrown)) : bool :=
  forallb (fun o => match o with None => true | Some _ => false end) sch.

(** The state after a driver call, whatever its outcome. *)
Definition after_call (call : DriverCall num) (st : State num) : State num :=
  {| this := this st;
     world := {| env := env (world st); console := console (world st);
                 clock := clock (world st); mongo := mongo (world st);
                 next_id := next_id (world st);
                 driver_calls := driver_calls (world st) ++ [call];
                 schedule := tail (schedule (world st)) |};
     heap := heap st |}.

(** The state with the contents of the MongoDB server replaced. *)
Definition with_mongo (m : gmap (string * string) (CollectionData num))
    (st : State num) : State num :=
  {| this := this st;
     world := {| env := env (world st); console := console (world st);
                 clock := clock (world st); mongo := m;
                 next_id := next_id (world st);
                 driver_calls := driver_calls (world st);
                 schedule := schedule (world st) |};
     heap := heap st |}.

(** A collection with one more index, unless it has it. *)
Definition add_index (spec : IndexSpec) (d : CollectionData num)
  : CollectionData num :=
  if existsb (spec_eqb spec) (indexes d) then d
  else {| indexes := indexes d ++ [spec]; documents := documents d |}.

(** The collection of the server and its two indexes. *)
Definition requests : string := "gpt-webhook-requests".
Definition by_timestamp : IndexSpec := [("timestamp", -1)].
Definition by_user : IndexSpec := [("userInfo.id", 1)].

(** The state after the driver has written a fresh identifier into the
    document [doc] behind [ref]. *)
Definition stamped (ref : Ref) (doc : WebhookRequest num) (st : State num)
  : State num :=
  {| this := this st;
     world := {| env := env (world st); console := console (world st);
                 clock := clock (world st); mongo := mongo (world st);
                 next_id := N.succ (next_id (world st));
                 driver_calls := driver_calls (world st);
                 schedule := schedule (world st) |};
     heap := <[ref := with_id doc (next_id (world st))]> (heap st) |}.

(** The state after [insertOne] has failed: the identifier is written, the
    call is made, the server is as it was. *)
Definition after_failed_insert (c : Collection) (ref : Ref)
    (doc : WebhookRequest num) (st : State num) : State num :=
  after_call (InsertOne c (with_id doc (next_id (world st)))) (stamped ref doc st).

(** The state after a successful [insertOne]. *)
Definition after_insert (c : Collection) (ref : Ref)
    (doc : WebhookRequest num) (st : State num) : State num :=
  let d := data_of (mongo (world st)) c in
  with_mongo
    (<[key_of c :=
        {| indexes := indexes d;
           documents := documents d ++ [with_id doc (next_id (world st))] |}]>
       (mongo (world st)))
    (after_failed_insert c ref doc st).

(** Two deliveries of one request, the clock reading [t2] at the second. *)
Definition twice (req : Request num) (t2 : Date) : M (num:=num) (Response * Response) :=
  r1 <- handleWebhook req ;;
  set_clock t2 ;;
  r2 <- handleWebhook req ;;
  ret (r1, r2).

(** The credentials the connection gets: the pair when both variables are
    set and not empty. *)
Definition credentials (srv : WebhookServer) : option (string * string) :=
  match mongoUsername srv, mongoPassword srv with
  | Some u, Some p =>
      if negb (String.eqb u "") && negb (String.eqb p "") then Some (u, p)
      else None
  | _, _ => None
  end.

(** The one console line that mentions authentication. *)
Definition auth_line : LogEntry num :=
  {| log_stream := Stdout; log_args := [LText "Using MongoDB authentication"] |}.

(** [st'] comes after [st]: driver calls and console lines were only
    added, and no added line mentions authentication. *)
Definition follows (st st' : State num) : Prop :=
  exists calls lines,
    driver_calls (world st') = (driver_calls (world st) ++ calls)%list
    /\ console (world st') = (console (world st) ++ lines)%list
    /\ ~ In auth_line lines.

Definition discreet {A} (m : M (num:=num) A) : Prop :=
  forall st, follows st (snd (m st)).

(** A computation that never throws. *)
Definition total {A} (m : M (num:=num) A) : Prop :=
  forall st, exists a, fst (m st) = Normal a.

Definition logged (s : Stream) (args : list (LogArg num)) (st : State num) : Prop :=
  In {| log_stream := s; log_args := args |} (console (world st)).

End Vocabulary.

(** Every character of [s] is in [[^/?]]. *)
Fixpoint all_name_chars (s : string) : bool :=
  match s with
  | EmptyString => true
  | String c rest => name_char c && all_name_chars rest
  end.

(** [s] is empty or starts with the question mark: what the pattern wants
    after the name. *)
Definition ends_name (s : string) : bool :=
  match s with
  | EmptyString => true
  | String c _ => Ascii.eqb c "?"
  end.

(** The database a connection string names, read as the format has it:
    after the scheme and [://] comes the host list, and only after a slash
    that ends the host list the database, up to the options. *)
Fixpoint after_scheme (url : string) : string :=
  match url with
  | EmptyString => EmptyString
  | String c rest =>
      match rest with
      | String c1 (String c2 tail) =>
          if Ascii.eqb c ":" && Ascii.eqb c1 "/" && Ascii.eqb c2 "/"
          then tail else after_scheme rest
      | _ => after_scheme rest
      end
  end.

Fixpoint after_hosts (s : string) : option string :=
  match s with
  | EmptyString => None
  | String c rest =>
      if Ascii.eqb c "/" then Some rest
      else if Ascii.eqb c "?" then None
      else after_hosts rest
  end.

Definition named_database (url : string) : option string :=
  match after_hosts (after_scheme url) with
  | Some path =>
      match fst (span_name path) with
      | EmptyString => None
      | name => Some name
      end
  | None => None
  end.

(** A character the driver refuses in a database name. *)
Definition refused_in_name (c : ascii) : bool :=
  Ascii.eqb c " " || Ascii.eqb c "." || Ascii.eqb c "$" || Ascii.eqb c "/"
  || (N_of_ascii c =? 92)%N.

Fixpoint free_of_refused (s : string) : bool :=
  match s with
  | EmptyString => true
  | String c rest => negb (refused_in_name c) && free_of_refused rest
  end.

(** A database name that [client.db] takes without throwing: not empty and
    with no space, dot, dollar sign, slash or backslash.  The driver throws
    on a name with a dot in every version; the other characters are refused
    by some versions, and are all excluded here. *)
Definition database_name_accepted (name : string) : bool :=
  negb (String.eqb name "") && free_of_refused name.

(** ** Sample configurations and requests *)

Definition production : Env :=
  {| MONGO_URL := Some "mongodb://db.internal:27017/hooks";
     MONGO_INITDB_ROOT_USERNAME := None;
     MONGO_INITDB_ROOT_PASSWORD := None;
     NODE_ENV := Some "production" |}.

Definition no_database_in_url : Env :=
  {| MONGO_URL := Some "mongodb://localhost:27017";
     MONGO_INITDB_ROOT_USERNAME := None;
     MONGO_INITDB_ROOT_PASSWORD := None;
     NODE_ENV := Some "production" |}.

Definition password_only : Env :=
  {| MONGO_URL := Some "mongodb://db.internal:27017/hooks";
     MONGO_INITDB_ROOT_USERNAME := None;
     MONGO_INITDB_ROOT_PASSWORD := Some "s3cret";
     NODE_ENV := Some "production" |}.

Definition network_down : Thrown :=
  ThrowError "MongoNetworkError" "connection refused".

(** A fresh process: the constructor has run, nothing else. *)
Definition boot (e : Env) (contents : gmap (string * string) (CollectionData Z))
    (sch : list (option Thrown)) : State Z :=
  {| this := constructor e;
     world := {| env := e; console := []; clock := 1700000000000;
                 mongo := contents; next_id := 1%N; driver_calls := [];
                 schedule := sch |};
     heap := [] |}.

(** The process after [connectToMongoDB]. *)
Definition started (e : Env) (contents : gmap (string * string) (CollectionData Z))
    (sch : list (option Thrown)) : State Z :=
  snd (connectToMongoDB (boot e contents sch)).

Definition post (payload : value Z) : Request Z :=
  {| req_headers := [("content-type", "application/json"); ("user-agent", "curl/8.5")];
     req_body := payload; req_query := VObj [];
     req_method := "POST"; req_url := "/nahui-gpt/income";
     req_ip := Some "203.0.113.7" |}.

Definition http_post (raw : RawBody Z) : HttpRequest Z :=
  {| http_method := "POST"; http_path := "/nahui-gpt/income";
     http_headers := [("content-type", "application/json"); ("user-agent", "curl/8.5")];
     http_query := VObj []; http_ip := Some "203.0.113.7";
     http_body := raw |}.

Definition hi : value Z := VObj [("message", VStr "hi")].
Definition empty_message : value Z :=
  VObj [("message", VStr ""); ("text", VStr "hi")].

(** A server whose collection was created earlier, without indexes. *)
Definition bare_collection : gmap (string * string) (CollectionData Z) :=
  {[ ("hooks", "gpt-webhook-requests") := {| indexes := []; documents := [] |} ]}.

(** ** Properties *)

Ltac mrun :=
  cbv [bind ret throw lift try_catch get_this get_world get_heap put_this
       put_world put_heap console_log console_error emit new_Date set_db
       set_client set_webhooksCollection set_mongo new_record];
  cbn [this world heap env console clock mongo next_id driver_calls schedule
       mongoUrl mongoUsername mongoPassword db client webhooksCollection].

Section Properties.
Context {num : Type} `{!JSNumber num}.

Lemma driver_succeeds (call : DriverCall num) st :
  next_call st = None -> driver call st = (Normal tt, after_call call st).
Proof.
  unfold next_call, driver, after_call. destruct st as [srv w]. mrun.
  destruct (schedule w) as [| [e |] rest]; simpl; intros; congruence.
Qed.

Lemma driver_fails (call : DriverCall num) st e :
  next_call st = Some e -> driver call st = (Abrupt e, after_call call st).
Proof.
  unfold next_call, driver, after_call. destruct st as [srv w]. mrun.
  destruct (schedule w) as [| [e' |] rest]; simpl; intros; congruence.
Qed.

Lemma calm_next (st : State num) : calm (schedule (world st)) = true -> next_call st = None.
Proof.
  unfold next_call. destruct (schedule (world st)) as [| [e |] rest]; simpl;
    intros; congruence.
Qed.

Lemma calm_tail sch : calm sch = true -> calm (tail sch) = true.
Proof. destruct sch as [| [e |] rest]; simpl; intros; congruence. Qed.

Lemma get_property_readable (v : value num) key :
  readable v = true -> get_property v key = Normal (field v key).
Proof. destruct v; simpl; intros; congruence. Qed.

Lemma derive_message_readable (v : value num) st :
  readable v = true ->
  derive_message v st = (Normal (first_truthy_message v), st).
Proof.
  intros Hr. unfold derive_message, js_or, bind, lift, ret, first_truthy_message.
  rewrite !(get_property_readable _ _ Hr).
  destruct (truthy (field v "message")); [reflexivity |].
  destruct (truthy (field v "text")); reflexivity.
Qed.

Lemma derive_userInfo_readable (req : Request num) st :
  readable (req_body req) = true ->
  derive_userInfo req (req_body req) st = (Normal (first_truthy_userInfo req), st).
Proof.
  intros Hr. unfold derive_userInfo, js_or, bind, lift, ret, first_truthy_userInfo.
  rewrite !(get_property_readable _ _ Hr).
  destruct (truthy (field (req_body req) "user")); [reflexivity |].
  destruct (truthy (field (req_body req) "userInfo")); reflexivity.
Qed.

Lemma deref_some ref (r : WebhookRequest num) st :
  heap st !! ref = Some r -> deref ref st = (Normal r, st).
Proof. intros Hr. unfold deref. mrun. rewrite Hr. reflexivity. Qed.

Lemma assign_id_some ref id (r : WebhookRequest num) st :
  heap st !! ref = Some r ->
  assign_id ref id st
  = (Normal tt, {| this := this st; world := world st;
                   heap := <[ref := with_id r id]> (heap st) |}).
Proof. intros Hr. unfold assign_id. mrun. rewrite Hr. reflexivity. Qed.

Lemma lookup_stamped ref (r r' : WebhookRequest num) (h : list (WebhookRequest num)) :
  h !! ref = Some r -> <[ref := r']> h !! ref = Some r'.
Proof. intros Hr. apply list_lookup_insert_eq. eapply lookup_lt_Some, Hr. Qed.

(** The driver writes the identifier before it sends the insert: a failed
    insert leaves it in the document. *)
Lemma insertOne_fails c ref (doc : WebhookRequest num) st e :
  heap st !! ref = Some doc ->
  _id doc = None ->
  next_call st = Some e ->
  insertOne c ref st = (Abrupt e, after_failed_insert c ref doc st).
Proof.
  intros Hd Hid Hn. unfold insertOne, bind at 1.
  rewrite (deref_some _ _ _ Hd). rewrite Hid.
  unfold fresh_id. mrun.
  rewrite assign_id_some with (r := doc) by exact Hd. mrun.
  rewrite deref_some with (r := with_id doc (next_id (world st)))
    by (cbn; eapply lookup_stamped, Hd).
  rewrite driver_fails with (e := e) by exact Hn.
  reflexivity.
Qed.

Lemma insertOne_succeeds c ref (doc : WebhookRequest num) st :
  heap st !! ref = Some doc ->
  _id doc = None ->
  next_call st = None ->
  insertOne c ref st = (Normal (next_id (world st)), after_insert c ref doc st).
Proof.
  intros Hd Hid Hn. unfold insertOne, bind at 1.
  rewrite (deref_some _ _ _ Hd). rewrite Hid.
  unfold fresh_id. mrun.
  rewrite assign_id_some with (r := doc) by exact Hd. mrun.
  rewrite deref_some with (r := with_id doc (next_id (world st)))
    by (cbn; eapply lookup_stamped, Hd).
  rewrite driver_succeeds by exact Hn.
  reflexivity.
Qed.

Ltac handler_start :=
  unfold handleWebhook; mrun;
  rewrite derive_message_readable by assumption;
  rewrite derive_userInfo_readable by assumption;
  mrun.

Lemma lookup_new (h : list (WebhookRequest num)) r :
  (h ++ [r]) !! length h = Some r.
Proof. apply list_lookup_middle. reflexivity. Qed.

(** With no collection the event is logged only. *)
Lemma handleWebhook_without_collection (req : Request num) st :
  readable (req_body req) = true ->
  webhooksCollection (this st) = None ->
  exists st',
    handleWebhook req st = (Normal (acknowledgement (clock (world st)) None), st')
    /\ this st' = this st
    /\ mongo (world st') = mongo (world st)
    /\ logged Stdout [LText "MongoDB not available, webhook data logged only"] st'.
Proof.
  intros Hr Hc. handler_start. rewrite Hc. mrun.
  rewrite deref_some with (r := event_of req (clock (world st)))
    by apply lookup_new.
  eexists; split; [reflexivity |]. cbn. repeat split; try reflexivity.
  unfold logged; cbn. rewrite !in_app_iff. simpl; tauto.
Qed.

(** A failed insert is logged and the event goes unstored; the identifier
    the driver wrote into the record is answered all the same. *)
Lemma handleWebhook_insert_fails (req : Request num) st c e :
  readable (req_body req) = true ->
  webhooksCollection (this st) = Some c ->
  next_call st = Some e ->
  exists st',
    handleWebhook req st
    = (Normal (acknowledgement (clock (world st)) (Some (next_id (world st)))), st')
    /\ this st' = this st
    /\ mongo (world st') = mongo (world st)
    /\ logged Stderr [LText "Failed to save to MongoDB:"; LThrown e] st'.
Proof.
  intros Hr Hc Hn. handler_start. rewrite Hc.
  rewrite insertOne_fails
    with (e := e) (doc := event_of req (clock (world st)));
    [| apply lookup_new | reflexivity | exact Hn].
  mrun.
  rewrite deref_some
    with (r := with_id (event_of req (clock (world st))) (next_id (world st)))
    by (cbn; eapply lookup_stamped, lookup_new).
  eexists; split; [reflexivity |]. cbn. repeat split; try reflexivity.
  unfold logged; cbn. rewrite !in_app_iff. simpl; tauto.
Qed.

(** A successful insert appends the event, with a fresh identifier, to the
    collection of the server and to no other. *)
Lemma handleWebhook_insert_succeeds (req : Request num) st c :
  readable (req_body req) = true ->
  webhooksCollection (this st) = Some c ->
  next_call st = None ->
  exists st',
    handleWebhook req st
    = (Normal (acknowledgement (clock (world st)) (Some (next_id (world st)))), st')
    /\ this st' = this st
    /\ clock (world st') = clock (world st)
    /\ next_id (world st') = N.succ (next_id (world st))
    /\ schedule (world st') = tail (schedule (world st))
    /\ mongo (world st')
       = <[key_of c :=
            {| indexes := indexes (data_of (mongo (world st)) c);
               documents := documents (data_of (mongo (world st)) c)
                            ++ [with_id (event_of req (clock (world st)))
                                        (next_id (world st))] |}]>
           (mongo (world st)).
Proof.
  intros Hr Hc Hn. handler_start. rewrite Hc.
  rewrite insertOne_succeeds
    with (doc := event_of req (clock (world st)));
    [| apply lookup_new | reflexivity | exact Hn].
  mrun.
  rewrite assign_id_some
    with (r := with_id (event_of req (clock (world st))) (next_id (world st)))
    by (cbn; eapply lookup_stamped, lookup_new).
  mrun.
  rewrite deref_some
    with (r := with_id (with_id (event_of req (clock (world st)))
                          (next_id (world st))) (next_id (world st)))
    by (cbn; eapply lookup_stamped, lookup_stamped, lookup_new).
  eexists; split; [reflexivity |]. cbn. repeat split; reflexivity.
Qed.

(** The one driver call of a webhook, whatever becomes of the insert. *)
Lemma handleWebhook_insert_sent (req : Request num) st c :
  readable (req_body req) = true ->
  webhooksCollection (this st) = Some c ->
  driver_calls (world (snd (handleWebhook req st)))
  = driver_calls (world st)
    ++ [InsertOne c (with_id (event_of req (clock (world st)))
                             (next_id (world st)))].
Proof.
  intros Hr Hc. handler_start. rewrite Hc.
  destruct (next_call st) as [e |] eqn:Hn.
  - rewrite insertOne_fails
      with (e := e) (doc := event_of req (clock (world st)));
      [| apply lookup_new | reflexivity | exact Hn].
    mrun.
    rewrite deref_some
      with (r := with_id (event_of req (clock (world st))) (next_id (world st)))
      by (cbn; eapply lookup_stamped, lookup_new).
    reflexivity.
  - rewrite insertOne_succeeds
      with (doc := event_of req (clock (world st)));
      [| apply lookup_new | reflexivity | exact Hn].
    mrun.
    rewrite assign_id_some
      with (r := with_id (event_of req (clock (world st))) (next_id (world st)))
      by (cbn; eapply lookup_stamped, lookup_new).
    mrun.
    rewrite deref_some
      with (r := with_id (with_id (event_of req (clock (world st)))
                            (next_id (world st))) (next_id (world st)))
      by (cbn; eapply lookup_stamped, lookup_stamped, lookup_new).
    reflexivity.
Qed.

Lemma listCollections_succeeds d name (st : State num) :
  next_call st = None ->
  listCollections d name st
  = (Normal (match mongo (world st) !! (databaseName d, name) with
             | Some _ => [name]
             | None => []
             end),
     after_call (ListCollections d name) st).
Proof.
  intros Hn. unfold listCollections, bind. rewrite (driver_succeeds _ _ Hn).
  reflexivity.
Qed.

Lemma createCollection_succeeds d name (st : State num) :
  next_call st = None ->
  mongo (world st) !! (databaseName d, name) = None ->
  createCollection d name st
  = (Normal tt,
     with_mongo (<[(databaseName d, name) := empty_collection]> (mongo (world st)))
       (after_call (CreateCollection d name) st)).
Proof.
  intros Hn Hm. unfold createCollection, bind. rewrite (driver_succeeds _ _ Hn).
  mrun. cbn. rewrite Hm. reflexivity.
Qed.

Lemma createIndex_succeeds c spec (st : State num) :
  next_call st = None ->
  createIndex c spec st
  = (Normal tt,
     with_mongo (<[key_of c := add_index spec (data_of (mongo (world st)) c)]>
                   (mongo (world st)))
       (after_call (CreateIndex c spec) st)).
Proof.
  intros Hn. unfold createIndex, bind. rewrite (driver_succeeds _ _ Hn).
  mrun. cbn. unfold add_index.
  destruct (existsb _ _); reflexivity.
Qed.

Lemma listCollections_fails d name (st : State num) e :
  next_call st = Some e ->
  listCollections d name st = (Abrupt e, after_call (ListCollections d name) st).
Proof.
  intros Hn. unfold listCollections, bind. rewrite (driver_fails _ _ _ Hn).
  reflexivity.
Qed.

Lemma createCollection_fails d name (st : State num) e :
  next_call st = Some e ->
  createCollection d name st = (Abrupt e, after_call (CreateCollection d name) st).
Proof.
  intros Hn. unfold createCollection, bind. rewrite (driver_fails _ _ _ Hn).
  reflexivity.
Qed.

Lemma createIndex_fails c spec (st : State num) e :
  next_call st = Some e ->
  createIndex c spec st = (Abrupt e, after_call (CreateIndex c spec) st).
Proof.
  intros Hn. unfold createIndex, bind. rewrite (driver_fails _ _ _ Hn).
  reflexivity.
Qed.

(** *** Computations that always end normally *)

Lemma total_ret {A} (a : A) : total (num:=num) (ret a).
Proof. intros st. exists a. reflexivity. Qed.

Lemma total_bind {A B} (m : M (num:=num) A) (k : A -> M (num:=num) B) :
  total m -> (forall a, total (k a)) -> total (bind m k).
Proof.
  intros Hm Hk st. unfold bind. destruct (Hm st) as [a Ha].
  destruct (m st) as [c st1]; simpl in Ha; subst c. apply Hk.
Qed.

Lemma total_try_catch {A} (m : M (num:=num) A) (h : Thrown -> M (num:=num) A) :
  (forall e, total (h e)) -> total (try_catch m h).
Proof.
  intros Hh st. unfold try_catch. destruct (m st) as [[a | e] st1].
  - exists a. reflexivity.
  - apply Hh.
Qed.

Lemma total_emit s (args : list (LogArg num)) : total (emit s args).
Proof. intros st. exists tt. reflexivity. Qed.

Lemma total_get_this : total (num:=num) get_this.
Proof. intros st. eexists. reflexivity. Qed.

Lemma total_get_world : total (num:=num) get_world.
Proof. intros st. eexists. reflexivity. Qed.

(** A response is always sent: whatever the request and the state, the
    handler ends normally with a response. *)
Lemma handleWebhook_total (req : Request num) : total (handleWebhook req).
Proof.
  unfold handleWebhook. apply total_try_catch. intros e.
  apply total_bind; [apply total_emit | intros _; apply total_ret].
Qed.

Lemma errorHandler_total (e : Thrown) : total (num:=num) (errorHandler e).
Proof.
  unfold errorHandler.
  apply total_bind; [apply total_emit | intros _].
  apply total_bind; [apply total_get_world | intros w; apply total_ret].
Qed.

(** Startup never fails: a connection error leaves the server running. *)
Lemma connectToMongoDB_total : total (num:=num) connectToMongoDB.
Proof.
  unfold connectToMongoDB. apply total_bind; [apply total_get_this | intros srv].
  destruct (mongoUrl srv) as [url |]; [| apply total_emit].
  destruct (String.eqb url ""); [apply total_emit |].
  apply total_try_catch. intros e.
  apply total_bind; [apply total_emit | intros _; apply total_emit].
Qed.

(** *** Computations that only add driver calls and console lines *)

Lemma follows_refl (st : State num) : follows st st.
Proof. exists [], []. rewrite !app_nil_r. auto. Qed.

Lemma follows_trans (st1 st2 st3 : State num) :
  follows st1 st2 -> follows st2 st3 -> follows st1 st3.
Proof.
  intros (c1 & l1 & Hc1 & Hl1 & Hn1) (c2 & l2 & Hc2 & Hl2 & Hn2).
  exists (c1 ++ c2), (l1 ++ l2). rewrite Hc2, Hc1, Hl2, Hl1, <- !app_assoc.
  repeat split. rewrite in_app_iff. tauto.
Qed.

Ltac unchanged :=
  intros st; exists [], []; mrun; cbn; rewrite !app_nil_r; auto.

Lemma discreet_ret {A} (a : A) : discreet (num:=num) (ret a).
Proof. intros st. apply follows_refl. Qed.

Lemma discreet_throw {A} e : discreet (num:=num) (throw (A:=A) e).
Proof. intros st. apply follows_refl. Qed.

Lemma discreet_bind {A B} (m : M (num:=num) A) (k : A -> M (num:=num) B) :
  discreet m -> (forall a, discreet (k a)) -> discreet (bind m k).
Proof.
  intros Hm Hk st. unfold bind. specialize (Hm st).
  destruct (m st) as [[a | e] st1]; simpl in *; [| exact Hm].
  eapply follows_trans; [exact Hm | apply Hk].
Qed.

Lemma discreet_try_catch {A} (m : M (num:=num) A) h :
  discreet m -> (forall e, discreet (h e)) -> discreet (try_catch m h).
Proof.
  intros Hm Hh st. unfold try_catch. specialize (Hm st).
  destruct (m st) as [[a | e] st1]; simpl in *; [exact Hm |].
  eapply follows_trans; [exact Hm | apply Hh].
Qed.

Lemma discreet_get_this : discreet (num:=num) get_this.
Proof. intros st. apply follows_refl. Qed.

Lemma discreet_get_world : discreet (num:=num) get_world.
Proof. intros st. apply follows_refl. Qed.

Lemma discreet_put_this srv : discreet (num:=num) (put_this srv).
Proof. unchanged. Qed.

Lemma discreet_emit s (args : list (LogArg num)) :
  {| log_stream := s; log_args := args |} <> auth_line -> discreet (emit s args).
Proof.
  intros Hne st. exists [], [{| log_stream := s; log_args := args |}].
  cbn. rewrite app_nil_r. repeat split. intros [Heq | []]. auto.
Qed.

Lemma discreet_driver call : discreet (num:=num) (driver call).
Proof.
  intros st. exists [call], []. unfold driver. mrun.
  destruct (schedule (world st)) as [| [e |] rest]; cbn;
    rewrite app_nil_r; auto.
Qed.

Lemma discreet_set_mongo m : discreet (num:=num) (set_mongo m).
Proof. unchanged. Qed.

Lemma discreet_fresh_id : discreet (num:=num) fresh_id.
Proof. unchanged. Qed.

Lemma discreet_set_db d : discreet (num:=num) (set_db d).
Proof. unchanged. Qed.

Lemma discreet_set_client c : discreet (num:=num) (set_client c).
Proof. unchanged. Qed.

Lemma discreet_set_webhooksCollection c : discreet (num:=num) (set_webhooksCollection c).
Proof. unchanged. Qed.

Create HintDb discreet.

#[local] Hint Resolve discreet_ret discreet_throw discreet_get_this
  discreet_get_world discreet_put_this discreet_driver discreet_set_mongo
  discreet_fresh_id discreet_set_db discreet_set_client
  discreet_set_webhooksCollection : discreet.

Ltac discreet_steps :=
  repeat first
    [ solve [ auto with discreet ]
    | apply discreet_emit; discriminate
    | apply discreet_try_catch; [| intros ? ]
    | apply discreet_bind; [| intros ? ]
    | match goal with
      | |- discreet (match ?x with _ => _ end) => destruct x
      end ].

Lemma discreet_listCollections d name : discreet (num:=num) (listCollections d name).
Proof. unfold listCollections. discreet_steps. Qed.

Lemma discreet_createCollection d name : discreet (num:=num) (createCollection d name).
Proof. unfold createCollection. discreet_steps. Qed.

Lemma discreet_createIndex c spec : discreet (num:=num) (createIndex c spec).
Proof. unfold createIndex. discreet_steps. Qed.

Lemma discreet_insertOne c doc : discreet (num:=num) (insertOne c doc).
Proof. unfold insertOne. discreet_steps. Qed.

#[local] Hint Resolve discreet_listCollections discreet_createCollection
  discreet_createIndex discreet_insertOne : discreet.

Lemma discreet_initializeCollections : discreet (num:=num) initializeCollections.
Proof. unfold initializeCollections, console_log, console_error. discreet_steps. Qed.

Lemma calm_after_call call (st : State num) :
  calm (schedule (world st)) = true ->
  calm (schedule (world (after_call call st))) = true.
Proof. apply calm_tail. Qed.

Lemma initializeCollections_calm (st : State num) d :
  db (this st) = Some d ->
  calm (schedule (world st)) = true ->
  exists st',
    initializeCollections st = (Normal tt, st')
    /\ webhooksCollection (this st') = Some (db_collection d requests)
    /\ db (this st') = db (this st)
    /\ client (this st') = client (this st)
    /\ calm (schedule (world st')) = true
    /\ mongo (world st')
       = match mongo (world st) !! (databaseName d, requests) with
         | Some _ => mongo (world st)
         | None => <[(databaseName d, requests) :=
                      {| indexes := [by_timestamp; by_user]; documents := [] |}]>
                     (mongo (world st))
         end.
Proof.
  intros Hdb Hcalm. unfold initializeCollections. mrun. rewrite Hdb.
  change (appPrefix ++ "-requests")%string with requests.
  rewrite listCollections_succeeds by (apply calm_next; exact Hcalm).
  destruct (mongo (world st) !! (databaseName d, requests)) as [data |] eqn:Hm.
  - cbn. eexists; split; [reflexivity |]. cbn.
    repeat split; try reflexivity; try assumption.
    exact (calm_tail _ Hcalm).
  - cbn [length Nat.eqb].
    rewrite createCollection_succeeds;
      [| exact (calm_next _ (calm_after_call _ _ Hcalm)) | exact Hm].
    mrun.
    rewrite createIndex_succeeds
      by (apply calm_next; cbn; exact (calm_tail _ (calm_tail _ Hcalm))).
    rewrite createIndex_succeeds
      by (apply calm_next; cbn;
          exact (calm_tail _ (calm_tail _ (calm_tail _ Hcalm)))).
    eexists; split; [reflexivity |]. cbn.
    repeat split; try reflexivity; try assumption.
    + exact (calm_tail _ (calm_tail _ (calm_tail _ (calm_tail _ Hcalm)))).
    + change (key_of (db_collection d requests)) with (databaseName d, requests).
      unfold data_of.
      change (key_of (db_collection d requests)) with (databaseName d, requests).
      rewrite !lookup_insert_eq. rewrite !insert_insert_eq. reflexivity.
Qed.

Lemma mongoOptions_result srv (st : State num) :
  exists st',
    mongoOptions srv st = (Normal {| auth := credentials srv |}, st')
    /\ this st' = this st
    /\ schedule (world st') = schedule (world st)
    /\ driver_calls (world st') = driver_calls (world st)
    /\ mongo (world st') = mongo (world st)
    /\ console (world st')
       = console (world st)
         ++ match credentials srv with Some _ => [auth_line] | None => [] end.
Proof.
  unfold mongoOptions, credentials, truthy_string.
  destruct (mongoUsername srv) as [u |], (mongoPassword srv) as [p |];
    try destruct (String.eqb u ""); try destruct (String.eqb p "");
    mrun; cbn;
    first [ exists st; rewrite app_nil_r; repeat split; reflexivity
          | eexists; split; [reflexivity |]; cbn; repeat split; reflexivity ].
Qed.

Lemma connect_probe (st : State num) url :
  mongoUrl (this st) = Some url ->
  String.eqb url "" = false ->
  exists st' calls lines,
    connectToMongoDB st = (Normal tt, st')
    /\ driver_calls (world st')
       = driver_calls (world st)
         ++ NewMongoClient url {| auth := credentials (this st) |} :: calls
    /\ (next_call st = None -> exists calls', calls = Connect :: calls')
    /\ console (world st') = console (world st) ++ lines
    /\ (In auth_line lines <-> is_Some (credentials (this st))).
Proof.
  intros Hurl Hne. unfold connectToMongoDB. mrun. rewrite Hurl, Hne.
  match goal with
  | |- context [mongoOptions (this st) ?s] =>
      destruct (mongoOptions_result (this st) s)
        as (st2 & Heq & Hthis & Hsch & Hcalls & Hmongo & Hcons);
      rewrite Heq
  end.
  cbn in Hthis, Hsch, Hcalls, Hmongo, Hcons.
  assert (Hnext : next_call st2 = next_call st)
    by (unfold next_call; rewrite Hsch; reflexivity).
  assert (Hauth : forall rest : list (LogEntry num),
             ~ In auth_line rest ->
             In auth_line
               (match credentials (this st) with
                | Some _ => [auth_line]
                | None => []
                end ++ rest)
             <-> is_Some (credentials (this st))).
  { intros rest Hrest. rewrite in_app_iff.
    destruct (credentials (this st)) as [up |]; simpl.
    - split; [eauto | auto].
    - split; [intros [[] | Hin]; contradiction | intros [x Hx]; discriminate]. }
  unfold new_MongoClient, client_connect. mrun.
  destruct (next_call st2) as [e1 |] eqn:Hn1.
  { rewrite (driver_fails _ _ _ Hn1). cbn.
    eexists _, [], _. split; [reflexivity |]. cbn.
    rewrite Hcalls, Hcons. cbn. rewrite <- !app_assoc. cbn.
    repeat split; try reflexivity.
    - intros Hn. congruence.
    - intros Hin. destruct Hin as [Hq | Hin]; [discriminate |].
      apply Hauth in Hin; [exact Hin |].
      simpl. intros [Hq | [Hq | []]]; discriminate.
    - intros Hs. right. apply Hauth; [| exact Hs].
      simpl. intros [Hq | [Hq | []]]; discriminate. }
  rewrite (driver_succeeds _ _ Hn1). mrun.
  match goal with
  | |- context [driver Connect ?s] =>
      destruct (next_call s) as [e2 |] eqn:Hn2;
      [ rewrite (driver_fails _ s e2 Hn2) | rewrite (driver_succeeds _ s Hn2) ]
  end; mrun.
  { eexists _, [Connect], _. split; [reflexivity |]. cbn.
    rewrite Hcalls, Hcons. cbn. rewrite <- !app_assoc. cbn.
    repeat split; try reflexivity.
    - intros _. eauto.
    - intros Hin. destruct Hin as [Hq | Hin]; [discriminate |].
      apply Hauth in Hin; [exact Hin |].
      simpl. intros [Hq | [Hq | []]]; discriminate.
    - intros Hs. right. apply Hauth; [| exact Hs].
      simpl. intros [Hq | [Hq | []]]; discriminate. }
  match goal with
  | |- context [initializeCollections ?s] =>
      destruct (discreet_initializeCollections s) as (calls & lines & Hc & Hl & Hnot);
      destruct (initializeCollections s) as [[[] | e3] st6]
  end; cbn in Hc, Hl; mrun.
  { eexists _, (Connect :: calls), _. split; [reflexivity |]. cbn.
    rewrite Hc, Hl, Hcalls, Hcons. cbn. rewrite <- !app_assoc. cbn.
    repeat split; try reflexivity.
    - intros _. eauto.
    - intros Hin. destruct Hin as [Hq | Hin]; [discriminate |].
      apply Hauth in Hin; [exact Hin |].
      rewrite in_app_iff. simpl. intros [Hin' | [Hq | []]];
        [contradiction | discriminate].
    - intros Hs. right. apply Hauth; [| exact Hs].
      rewrite in_app_iff. simpl. intros [Hin' | [Hq | []]];
        [contradiction | discriminate]. }
  { eexists _, (Connect :: calls), _. split; [reflexivity |]. cbn.
    rewrite Hc, Hl, Hcalls, Hcons. cbn. rewrite <- !app_assoc. cbn.
    repeat split; try reflexivity.
    - intros _. eauto.
    - intros Hin. destruct Hin as [Hq | Hin]; [discriminate |].
      apply Hauth in Hin; [exact Hin |].
      rewrite in_app_iff. simpl. intros [Hin' | [Hq | [Hq | []]]];
        [contradiction | discriminate | discriminate].
    - intros Hs. right. apply Hauth; [| exact Hs].
      rewrite in_app_iff. simpl. intros [Hin' | [Hq | [Hq | []]]];
        [contradiction | discriminate | discriminate]. }
Qed.

(** *** The derived message is never empty *)

Lemma stringify_readable (v : value num) :
  readable v = true -> exists s, stringify v = Some s /\ s <> ""%string.
Proof.
  destruct v as [| | b | n | s | elems | props]; simpl; intros Hr;
    try discriminate.
  - destruct b; eexists; split; try reflexivity; discriminate.
  - eexists; split; [reflexivity | apply num_to_string_nonempty].
  - eexists; split; [reflexivity | discriminate].
  - eexists; split; [reflexivity | discriminate].
  - eexists; split; [reflexivity | discriminate].
Qed.

Lemma JSON_stringify_truthy (v : value num) :
  readable v = true -> truthy (JSON_stringify v) = true.
Proof.
  intros Hr. destruct (stringify_readable v Hr) as (s & Hs & Hne).
  unfold JSON_stringify. rewrite Hs. simpl.
  destruct (String.eqb_spec s ""); [contradiction | reflexivity].
Qed.

Lemma first_truthy_message_truthy (v : value num) :
  readable v = true -> truthy (first_truthy_message v) = true.
Proof.
  intros Hr. unfold first_truthy_message.
  destruct (truthy (field v "message")) eqn:Hm; [exact Hm |].
  destruct (truthy (field v "text")) eqn:Ht; [exact Ht |].
  apply JSON_stringify_truthy, Hr.
Qed.

(** *** A body that cannot be read *)

Lemma handleWebhook_unreadable (req : Request num) (st : State num) :
  readable (req_body req) = false ->
  exists st',
    handleWebhook req st
    = (Normal {| statusCode := 500;
                 body := WebhookFailure false "Error processing webhook"
                           (Some ("Cannot read properties of "
                                    ++ describe (req_body req)
                                    ++ " (reading 'message')")%string) |}, st')
    /\ this st' = this st
    /\ mongo (world st') = mongo (world st).
Proof.
  intros Hr. unfold handleWebhook, derive_message, js_or. mrun.
  destruct (req_body req); try discriminate; cbn;
    (eexists; split; [reflexivity |]; cbn; split; reflexivity).
Qed.

(** *** Health *)

Lemma health_reports_db (st : State num) :
  health st
  = (Normal {| statusCode := 200;
               body := HealthReport "OK" (clock (world st))
                         (match db (this st) with
                          | Some _ => "connected"
                          | None => "not connected"
                          end) |}, st).
Proof. reflexivity. Qed.

(** *** Startup *)

Lemma connectToMongoDB_unconfigured (st : State num) :
  truthy_string (mongoUrl (this st)) = false ->
  exists st', connectToMongoDB st = (Normal tt, st')
              /\ this st' = this st
              /\ driver_calls (world st') = driver_calls (world st).
Proof.
  intros Hu. unfold connectToMongoDB. mrun.
  destruct (mongoUrl (this st)) as [url |]; simpl in Hu.
  - destruct (String.eqb url ""); [| discriminate].
    eexists; split; [reflexivity |]. split; reflexivity.
  - eexists; split; [reflexivity |]. split; reflexivity.
Qed.

Lemma connectToMongoDB_calm (st : State num) url :
  mongoUrl (this st) = Some url ->
  String.eqb url "" = false ->
  calm (schedule (world st)) = true ->
  exists st',
    connectToMongoDB st = (Normal tt, st')
    /\ db (this st') = Some (client_db (resolveDatabaseName url))
    /\ webhooksCollection (this st')
       = Some (db_collection (client_db (resolveDatabaseName url)) requests)
    /\ client (this st')
       = Some {| client_url := url;
                 client_options := {| auth := credentials (this st) |} |}
    /\ calm (schedule (world st')) = true
    /\ mongo (world st')
       = match mongo (world st) !! (resolveDatabaseName url, requests) with
         | Some _ => mongo (world st)
         | None => <[(resolveDatabaseName url, requests) :=
                      {| indexes := [by_timestamp; by_user]; documents := [] |}]>
                     (mongo (world st))
         end.
Proof.
  intros Hurl Hne Hcalm. unfold connectToMongoDB. mrun. rewrite Hurl, Hne.
  match goal with
  | |- context [mongoOptions (this st) ?s] =>
      destruct (mongoOptions_result (this st) s)
        as (st2 & Heq & Hthis & Hsch & Hcalls & Hmongo & Hcons);
      rewrite Heq
  end.
  cbn in Hthis, Hsch, Hcalls, Hmongo, Hcons.
  assert (Hcalm2 : calm (schedule (world st2)) = true) by (rewrite Hsch; exact Hcalm).
  unfold new_MongoClient, client_connect. mrun.
  rewrite (driver_succeeds _ _ (calm_next _ Hcalm2)). mrun.
  match goal with
  | |- context [driver Connect ?s] =>
      rewrite (driver_succeeds _ s (calm_next s (calm_tail _ Hcalm2)))
  end. mrun.
  match goal with
  | |- context [initializeCollections ?s] =>
      destruct (initializeCollections_calm s (client_db (resolveDatabaseName url)))
        as (st3 & Hinit & Hwc & Hdb & Hcl & Hcalm3 & Hm3);
      [ reflexivity | exact (calm_tail _ (calm_tail _ Hcalm2)) | rewrite Hinit ]
  end.
  cbn in Hwc, Hdb, Hcl, Hcalm3, Hm3.
  eexists; split; [reflexivity |]. cbn.
  rewrite Hdb, Hwc, Hcl, Hm3, Hmongo. repeat split; try reflexivity.
  exact Hcalm3.
Qed.

(** A connection that fails leaves the server without database handle. *)
Lemma connectToMongoDB_connect_fails (st : State num) url e rest :
  mongoUrl (this st) = Some url ->
  String.eqb url "" = false ->
  schedule (world st) = None :: Some e :: rest ->
  exists st',
    connectToMongoDB st = (Normal tt, st')
    /\ db (this st') = db (this st)
    /\ webhooksCollection (this st') = webhooksCollection (this st)
    /\ mongo (world st') = mongo (world st).
Proof.
  intros Hurl Hne Hs. unfold connectToMongoDB. mrun. rewrite Hurl, Hne.
  match goal with
  | |- context [mongoOptions (this st) ?s] =>
      destruct (mongoOptions_result (this st) s)
        as (st2 & Heq & Hthis & Hsch & Hcalls & Hmongo & Hcons);
      rewrite Heq
  end.
  cbn in Hthis, Hsch, Hcalls, Hmongo, Hcons. rewrite Hs in Hsch.
  unfold new_MongoClient, client_connect. mrun.
  rewrite driver_succeeds by (unfold next_call; rewrite Hsch; reflexivity). mrun.
  rewrite driver_fails with (e := e)
    by (unfold next_call; cbn; rewrite Hsch; reflexivity).
  mrun. eexists; split; [reflexivity |]. cbn.
  rewrite Hthis, Hmongo. repeat split; reflexivity.
Qed.

(** When the collections cannot be initialized the database handle stays. *)
Lemma connectToMongoDB_init_fails (st : State num) url e rest :
  mongoUrl (this st) = Some url ->
  String.eqb url "" = false ->
  schedule (world st) = None :: None :: Some e :: rest ->
  exists st',
    connectToMongoDB st = (Normal tt, st')
    /\ db (this st') = Some (client_db (resolveDatabaseName url))
    /\ webhooksCollection (this st') = webhooksCollection (this st)
    /\ mongo (world st') = mongo (world st)
    /\ logged Stdout [LText "Continuing without database persistence..."] st'.
Proof.
  intros Hurl Hne Hs. unfold connectToMongoDB. mrun. rewrite Hurl, Hne.
  match goal with
  | |- context [mongoOptions (this st) ?s] =>
      destruct (mongoOptions_result (this st) s)
        as (st2 & Heq & Hthis & Hsch & Hcalls & Hmongo & Hcons);
      rewrite Heq
  end.
  cbn in Hthis, Hsch, Hcalls, Hmongo, Hcons. rewrite Hs in Hsch.
  unfold new_MongoClient, client_connect. mrun.
  rewrite driver_succeeds by (unfold next_call; rewrite Hsch; reflexivity). mrun.
  rewrite driver_succeeds by (unfold next_call; cbn; rewrite Hsch; reflexivity).
  mrun. unfold initializeCollections. mrun.
  rewrite listCollections_fails with (e := e)
    by (unfold next_call; cbn; rewrite Hsch; reflexivity).
  mrun. eexists; split; [reflexivity |]. cbn.
  rewrite Hthis, Hmongo. repeat split; try reflexivity.
  unfold logged. cbn. rewrite !in_app_iff. simpl. tauto.
Qed.

(** The first version sets the handle and the collection together, and
    touches nothing on the server. *)
Lemma SrcIndex_connectToMongoDB_calm (st : State num) url :
  mongoUrl (this st) = Some url ->
  String.eqb url "" = false ->
  calm (schedule (world st)) = true ->
  exists st',
    SrcIndex.connectToMongoDB st = (Normal tt, st')
    /\ db (this st') = Some {| databaseName := "webhook-server" |}
    /\ webhooksCollection (this st')
       = Some {| collection_db := "webhook-server"; collectionName := "webhooks" |}
    /\ mongo (world st') = mongo (world st).
Proof.
  intros Hurl Hne Hcalm. unfold SrcIndex.connectToMongoDB. mrun.
  rewrite Hurl, Hne. unfold new_MongoClient, client_connect. mrun.
  rewrite driver_succeeds by (apply calm_next; exact Hcalm). mrun.
  rewrite driver_succeeds by (apply calm_next; exact (calm_tail _ Hcalm)).
  mrun. eexists; split; [reflexivity |]. repeat split; reflexivity.
Qed.

(** *** Two deliveries *)

Lemma data_of_insert (m : gmap (string * string) (CollectionData num)) c d :
  data_of (<[key_of c := d]> m) c = d.
Proof. unfold data_of. rewrite lookup_insert_eq. reflexivity. Qed.

Lemma twice_stored (req : Request num) (st : State num) c t2 :
  readable (req_body req) = true ->
  webhooksCollection (this st) = Some c ->
  calm (schedule (world st)) = true ->
  exists st',
    twice req t2 st
    = (Normal (acknowledgement (clock (world st)) (Some (next_id (world st))),
               acknowledgement t2 (Some (N.succ (next_id (world st))))), st')
    /\ documents (data_of (mongo (world st')) c)
       = documents (data_of (mongo (world st)) c)
         ++ [with_id (event_of req (clock (world st))) (next_id (world st));
             with_id (event_of req t2) (N.succ (next_id (world st)))]
    /\ indexes (data_of (mongo (world st')) c)
       = indexes (data_of (mongo (world st)) c).
Proof.
  intros Hr Hc Hcalm. unfold twice, bind.
  destruct (handleWebhook_insert_succeeds req st c Hr Hc (calm_next _ Hcalm))
    as (st1 & H1 & Hthis1 & Hclock1 & Hid1 & Hsch1 & Hm1).
  rewrite H1. unfold set_clock. mrun.
  match goal with
  | |- context [handleWebhook req ?s] =>
      destruct (handleWebhook_insert_succeeds req s c Hr) as
        (st2 & H2 & Hthis2 & Hclock2 & Hid2 & Hsch2 & Hm2);
      [ cbn; rewrite Hthis1; exact Hc
      | apply calm_next; cbn; rewrite Hsch1; exact (calm_tail _ Hcalm)
      | rewrite H2 ]
  end.
  cbn in Hthis2, Hclock2, Hid2, Hsch2, Hm2. unfold ret.
  rewrite Hid1. eexists; split; [reflexivity |].
  rewrite Hm2, Hm1, Hid1. rewrite !data_of_insert. cbn.
  rewrite <- app_assoc. split; reflexivity.
Qed.

(** *** The pattern of [extractDatabaseName] *)

Lemma name_char_not_slash c : name_char c = true -> Ascii.eqb c "/" = false.
Proof.
  unfold name_char. destruct (Ascii.eqb c "/"); simpl; congruence.
Qed.

Lemma span_name_app name rest :
  all_name_chars name = true ->
  match rest with
  | EmptyString => True
  | String c _ => name_char c = false
  end ->
  span_name (name ++ rest)%string = (name, rest).
Proof.
  induction name as [| c name IH]; simpl; intros Hname Hrest.
  - destruct rest as [| c rest]; [reflexivity |]. simpl. rewrite Hrest.
    reflexivity.
  - apply andb_true_iff in Hname as [Hc Hname]. rewrite Hc.
    rewrite (IH Hname Hrest). reflexivity.
Qed.

Lemma match_database_skip host s :
  all_name_chars host = true ->
  match_database (host ++ s)%string = match_database s.
Proof.
  induction host as [| c host IH]; simpl; intros Hh; [reflexivity |].
  apply andb_true_iff in Hh as [Hc Hh].
  rewrite (name_char_not_slash _ Hc). auto.
Qed.

Lemma append_empty s : (s ++ EmptyString)%string = s.
Proof.
  induction s as [| c s IH]; [reflexivity |].
  change (String c (s ++ EmptyString)%string = String c s). congruence.
Qed.

Lemma extract_after_scheme x :
  extractDatabaseName ("mongodb://" ++ x)%string
  = match match_after_slash x with
    | Some name => Some name
    | None => match_database x
    end.
Proof.
  unfold extractDatabaseName. simpl.
  change (EmptyString ++ x)%string with x.
  destruct (match_after_slash x); [reflexivity |].
  destruct (match_database x); reflexivity.
Qed.

Lemma match_after_slash_name name rest :
  all_name_chars name = true ->
  name <> EmptyString ->
  ends_name rest = true ->
  match_after_slash (name ++ rest)%string = Some name.
Proof.
  intros Hn Hne Hrest. unfold match_after_slash. rewrite span_name_app.
  - destruct name as [| c name]; [contradiction |].
    destruct rest as [| r rest]; [reflexivity |]. simpl in Hrest.
    rewrite Hrest. reflexivity.
  - exact Hn.
  - destruct rest as [| r rest]; [exact I |]. simpl in Hrest.
    apply Ascii.eqb_eq in Hrest. subst r. reflexivity.
Qed.

Lemma match_after_slash_blocked host tail :
  all_name_chars host = true ->
  match_after_slash (host ++ String "/" tail)%string = None.
Proof.
  intros Hh. unfold match_after_slash.
  rewrite span_name_app by (simpl; auto).
  destruct host; reflexivity.
Qed.

(** With a database in the connection string the pattern finds it. *)
Lemma extract_with_database host name rest :
  all_name_chars host = true ->
  all_name_chars name = true ->
  name <> EmptyString ->
  ends_name rest = true ->
  extractDatabaseName ("mongodb://" ++ host ++ "/" ++ name ++ rest)%string
  = Some name.
Proof.
  intros Hh Hn Hne Hrest. rewrite extract_after_scheme.
  change ("/" ++ name ++ rest)%string with (String "/" (name ++ rest)).
  rewrite match_after_slash_blocked by exact Hh.
  rewrite match_database_skip by exact Hh. simpl.
  rewrite match_after_slash_name by assumption. reflexivity.
Qed.

(** With no database and no slash after the hosts, the pattern takes the
    host list for the database. *)
Lemma extract_without_path host :
  all_name_chars host = true ->
  host <> EmptyString ->
  extractDatabaseName ("mongodb://" ++ host)%string = Some host.
Proof.
  intros Hh Hne. rewrite extract_after_scheme.
  rewrite <- (append_empty host) at 1.
  rewrite match_after_slash_name by auto. reflexivity.
Qed.

(** *** Shutdown *)

Lemma shutdown_exits_zero (st : State num) :
  exists st', shutdown st = (Normal 0, st').
Proof.
  unfold shutdown, client_close. mrun.
  destruct (client (this st)); [| eexists; reflexivity].
  match goal with
  | |- context [driver Close ?s] =>
      destruct (next_call s) as [e |] eqn:Hn;
      [ rewrite (driver_fails _ s e Hn) | rewrite (driver_succeeds _ s Hn) ]
  end; eexists; reflexivity.
Qed.

Lemma shutdown_logs_close_failure (st : State num) c e :
  client (this st) = Some c ->
  next_call st = Some e ->
  exists st', shutdown st = (Normal 0, st')
              /\ logged Stderr [LText "Error closing MongoDB connection:";
                                LThrown e] st'.
Proof.
  intros Hc Hn. unfold shutdown, client_close. mrun. rewrite Hc.
  rewrite driver_fails with (e := e) by exact Hn.
  eexists; split; [reflexivity |].
  unfold logged. cbn. rewrite !in_app_iff. simpl. tauto.
Qed.

(** *** The claims *)

(** C1, as amended.  For every request that reaches the handler of
    POST /nahui-gpt/income with a parsed body that is a JSON object or array
    (what the body parser hands over for a body it accepts: sent as
    [application/json], within the 10 MB limit, and denoting an object or an
    array), the answer is 200 with [success: true] and the receipt time as
    timestamp, whatever the state of the persistence adapter and whether or
    not the write succeeds. *)
Theorem post_income_acknowledged (req : Request num) (st : State num) :
  object_or_array (req_body req) = true ->
  exists resp st',
    handleWebhook req st = (Normal resp, st')
    /\ statusCode resp = 200
    /\ res_success resp = Some true
    /\ res_timestamp resp = Some (clock (world st)).
Proof.
  intros Hv.
  assert (Hr : readable (req_body req) = true)
    by (destruct (req_body req); simpl in *; congruence).
  destruct (webhooksCollection (this st)) as [c |] eqn:Hc.
  - destruct (next_call st) as [e |] eqn:Hn.
    + destruct (handleWebhook_insert_fails _ st c e Hr Hc Hn) as (st' & H & _).
      rewrite H. eexists _, _. repeat split.
    + destruct (handleWebhook_insert_succeeds _ st c Hr Hc Hn) as (st' & H & _).
      rewrite H. eexists _, _. repeat split.
  - destruct (handleWebhook_without_collection _ st Hr Hc) as (st' & H & _).
    rewrite H. eexists _, _. repeat split.
Qed.

(** C2, as amended.  For every payload the handler can read, the derived
    message is never empty and is, first match wins: the [message] field if
    it is truthy, else the [text] field if it is truthy, else the serialized
    payload.  It is the message of the stored record; the response carries
    the fixed text [Webhook received and processed]. *)
Theorem derived_message_first_truthy (req : Request num) (st : State num) :
  readable (req_body req) = true ->
  exists m resp st',
    derive_message (req_body req) st = (Normal m, st)
    /\ truthy m = true
    /\ m <> VStr ""
    /\ (truthy (field (req_body req) "message") = true ->
        m = field (req_body req) "message")
    /\ (truthy (field (req_body req) "message") = false ->
        truthy (field (req_body req) "text") = true ->
        m = field (req_body req) "text")
    /\ (truthy (field (req_body req) "message") = false ->
        truthy (field (req_body req) "text") = false ->
        m = JSON_stringify (req_body req))
    /\ handleWebhook req st = (Normal resp, st')
    /\ res_message resp = Some "Webhook received and processed"%string
    /\ (forall c,
          webhooksCollection (this st) = Some c ->
          next_call st = None ->
          exists doc,
            documents (data_of (mongo (world st')) c)
            = documents (data_of (mongo (world st)) c) ++ [doc]
            /\ message doc = m).
Proof.
  intros Hr.
  pose proof (first_truthy_message_truthy _ Hr) as Ht.
  assert (Hshape :
            exists resp st',
              handleWebhook req st = (Normal resp, st')
              /\ res_message resp = Some "Webhook received and processed"%string
              /\ (forall c,
                    webhooksCollection (this st) = Some c ->
                    next_call st = None ->
                    exists doc,
                      documents (data_of (mongo (world st')) c)
                      = documents (data_of (mongo (world st)) c) ++ [doc]
                      /\ message doc = first_truthy_message (req_body req))).
  { destruct (webhooksCollection (this st)) as [c |] eqn:Hc.
    - destruct (next_call st) as [e |] eqn:Hn.
      + destruct (handleWebhook_insert_fails _ st c e Hr Hc Hn) as (st' & H & _).
        eexists _, st'. split; [exact H |]. split; [reflexivity |].
        intros c' _ Hn'. discriminate.
      + destruct (handleWebhook_insert_succeeds _ st c Hr Hc Hn)
          as (st' & H & _ & _ & _ & _ & Hm).
        eexists _, st'. split; [exact H |]. split; [reflexivity |].
        intros c' Hc' _. injection Hc' as <-. rewrite Hm, data_of_insert.
        eexists. split; reflexivity.
    - destruct (handleWebhook_without_collection _ st Hr Hc) as (st' & H & _).
      eexists _, st'. split; [exact H |]. split; [reflexivity |].
      intros c' Hc'. discriminate. }
  destruct Hshape as (resp & st' & Hh & Hmsg & Hstored).
  exists (first_truthy_message (req_body req)), resp, st'.
  split; [apply derive_message_readable, Hr |].
  split; [exact Ht |].
  split; [intros Heq; rewrite Heq in Ht; discriminate |].
  unfold first_truthy_message.
  split; [intros ->; reflexivity |].
  split; [intros -> ->; reflexivity |].
  split; [intros -> ->; reflexivity |].
  auto.
Qed.

(** C7, as amended.  When every driver call of startup succeeds and the
    resolved database name is one the driver takes, the adapter holds the
    collection named by the application prefix plus [-requests] in the
    resolved database: if it was absent it is created with the two indexes,
    descending on [timestamp] and ascending on [userInfo.id]; if it existed
    nothing is created.  Events are then recorded into exactly that
    collection: the one driver call of a webhook is the insert of its record
    into it, and a successful insert adds one document, with the identifier
    of the response, to it and to no other collection. *)
Theorem collection_ensured (st : State num) url :
  mongoUrl (this st) = Some url ->
  String.eqb url "" = false ->
  database_name_accepted (resolveDatabaseName url) = true ->
  calm (schedule (world st)) = true ->
  exists st',
    connectToMongoDB st = (Normal tt, st')
    /\ webhooksCollection (this st')
       = Some {| collection_db := resolveDatabaseName url;
                 collectionName := (appPrefix ++ "-requests")%string |}
    /\ (mongo (world st) !! (resolveDatabaseName url,
                              (appPrefix ++ "-requests")%string) = None ->
        mongo (world st')
        = <[(resolveDatabaseName url, (appPrefix ++ "-requests")%string) :=
             {| indexes := [[("timestamp"%string, -1)];
                            [("userInfo.id"%string, 1)]];
                documents := [] |}]> (mongo (world st)))
    /\ (is_Some (mongo (world st) !! (resolveDatabaseName url,
                                       (appPrefix ++ "-requests")%string)) ->
        mongo (world st') = mongo (world st))
    /\ (forall (req : Request num) (st2 : State num),
          this st2 = this st' ->
          readable (req_body req) = true ->
          next_call st2 = None ->
          exists resp st3 doc stored,
            handleWebhook req st2 = (Normal resp, st3)
            /\ driver_calls (world st3)
               = driver_calls (world st2)
                 ++ [InsertOne
                       {| collection_db := resolveDatabaseName url;
                          collectionName := (appPrefix ++ "-requests")%string |}
                       (with_id (event_of req (clock (world st2)))
                                (next_id (world st2)))]
            /\ mongo (world st3)
               = <[(resolveDatabaseName url, (appPrefix ++ "-requests")%string) :=
                    doc]> (mongo (world st2))
            /\ indexes doc
               = indexes (data_of (mongo (world st2))
                            {| collection_db := resolveDatabaseName url;
                               collectionName := (appPrefix ++ "-requests")%string |})
            /\ documents doc
               = documents (data_of (mongo (world st2))
                              {| collection_db := resolveDatabaseName url;
                                 collectionName := (appPrefix ++ "-requests")%string |})
                 ++ [stored]
            /\ _id stored = res_id resp
            /\ res_id resp = Some (next_id (world st2))).
Proof.
  intros Hurl Hne _ Hcalm.
  destruct (connectToMongoDB_calm st url Hurl Hne Hcalm)
    as (st' & Hrun & Hdb & Hwc & Hcl & Hcalm' & Hm).
  change (appPrefix ++ "-requests")%string with requests.
  exists st'. split; [exact Hrun |]. split; [exact Hwc |].
  split; [intros Hnone; rewrite Hm, Hnone; reflexivity |].
  split; [intros [d Hsome]; rewrite Hm, Hsome; reflexivity |].
  intros req st2 Hthis Hr Hn.
  assert (Hc : webhooksCollection (this st2)
               = Some (db_collection (client_db (resolveDatabaseName url)) requests))
    by (rewrite Hthis; exact Hwc).
  pose proof (handleWebhook_insert_sent req st2 _ Hr Hc) as Hsent.
  destruct (handleWebhook_insert_succeeds req st2 _ Hr Hc Hn)
    as (st3 & H & _ & _ & _ & _ & Hm3).
  rewrite H in Hsent. cbn [snd] in Hsent.
  eexists _, st3, _, _. split; [exact H |]. split; [exact Hsent |].
  split; [exact Hm3 |]. repeat split; reflexivity.
Qed.

(** C8, as amended.  The same payload delivered twice, with the store
    connected and both inserts succeeding, is stored twice: two records with
    distinct identifiers, each stamped with the clock reading at its own
    receipt, are appended and acknowledged; nothing is deduplicated. *)
Theorem identical_payloads_stored_twice (req : Request num) (st : State num)
    c t2 :
  readable (req_body req) = true ->
  webhooksCollection (this st) = Some c ->
  calm (schedule (world st)) = true ->
  exists r1 r2 d1 d2 id1 id2 st',
    twice req t2 st = (Normal (r1, r2), st')
    /\ documents (data_of (mongo (world st')) c)
       = documents (data_of (mongo (world st)) c) ++ [d1; d2]
    /\ _id d1 = Some id1 /\ _id d2 = Some id2 /\ id1 <> id2
    /\ res_id r1 = Some id1 /\ res_id r2 = Some id2
    /\ timestamp d1 = clock (world st) /\ timestamp d2 = t2
    /\ res_timestamp r1 = Some (clock (world st))
    /\ res_timestamp r2 = Some t2
    /\ message d1 = message d2
    /\ userInfo d1 = userInfo d2
    /\ fullRequest d1 = fullRequest d2.
Proof.
  intros Hr Hc Hcalm.
  destruct (twice_stored req st c t2 Hr Hc Hcalm) as (st' & Hrun & Hdocs & _).
  eexists _, _, _, _, (next_id (world st)), (N.succ (next_id (world st))), st'.
  split; [exact Hrun |]. split; [exact Hdocs |].
  repeat split; try reflexivity.
  intros Heq. symmetry in Heq. revert Heq. apply N.neq_succ_diag_l.
Qed.

(** C9.  On a termination signal [shutdown] ends with [process.exit(0)]:
    with no client, with a client that closes, and with a client whose
    [close] fails, in which case the failure is logged and the exit code is
    still 0. *)
Theorem shutdown_always_exits_zero (st : State num) :
  exists st',
    shutdown st = (Normal 0, st')
    /\ match client (this st), next_call st with
       | Some _, Some e =>
           logged Stderr [LText "Error closing MongoDB connection:"; LThrown e] st'
       | Some _, None => logged Stdout [LText "MongoDB connection closed"] st'
       | None, _ => driver_calls (world st') = driver_calls (world st)
       end.
Proof.
  destruct (client (this st)) as [c |] eqn:Hc.
  - destruct (next_call st) as [e |] eqn:Hn.
    + destruct (shutdown_logs_close_failure st c e Hc Hn) as (st' & H & Hlog).
      exists st'. split; assumption.
    + unfold shutdown, client_close. mrun. rewrite Hc.
      rewrite driver_succeeds by exact Hn. mrun.
      eexists; split; [reflexivity |].
      unfold logged. cbn. rewrite !in_app_iff. simpl. tauto.
  - unfold shutdown. mrun. rewrite Hc.
    eexists; split; [reflexivity |]. reflexivity.
Qed.

(** C10.  The first driver call of startup builds the client with the
    credential pair exactly when both variables are set (and not empty);
    otherwise, so when exactly one is set, the client is built without
    authentication, the connection is attempted all the same, and no line of
    the console mentions authentication. *)
Theorem credentials_need_both (st : State num) url :
  mongoUrl (this st) = Some url ->
  String.eqb url "" = false ->
  exists st' calls lines a,
    connectToMongoDB st = (Normal tt, st')
    /\ driver_calls (world st')
       = driver_calls (world st) ++ NewMongoClient url {| auth := a |} :: calls
    /\ (forall u p,
          a = Some (u, p)
          <-> mongoUsername (this st) = Some u
              /\ mongoPassword (this st) = Some p
              /\ u <> ""%string /\ p <> ""%string)
    /\ (mongoUsername (this st) = None \/ mongoPassword (this st) = None ->
        a = None)
    /\ (next_call st = None -> exists calls', calls = Connect :: calls')
    /\ console (world st') = console (world st) ++ lines
    /\ (a = None -> ~ In auth_line lines).
Proof.
  intros Hurl Hne.
  destruct (connect_probe st url Hurl Hne)
    as (st' & calls & lines & Hrun & Hcalls & Hconn & Hcons & Hauth).
  exists st', calls, lines, (credentials (this st)).
  split; [exact Hrun |]. split; [exact Hcalls |].
  split.
  { intros u p. unfold credentials.
    destruct (mongoUsername (this st)) as [u' |], (mongoPassword (this st)) as [p' |];
      try (split; [discriminate | intros (H1 & H2 & _); discriminate]).
    destruct (String.eqb_spec u' ""), (String.eqb_spec p' ""); simpl;
      (split; [ intros H; try discriminate; injection H as <- <-; auto
              | intros (H1 & H2 & H3 & H4);
                injection H1 as <-; injection H2 as <-;
                try contradiction; reflexivity ]). }
  split.
  { unfold credentials. intros [-> | ->]; [reflexivity |].
    destruct (mongoUsername (this st)); reflexivity. }
  split; [exact Hconn |]. split; [exact Hcons |].
  intros Ha Hin. apply Hauth in Hin. rewrite Ha in Hin.
  destruct Hin as [x Hx]. discriminate.
Qed.

End Properties.

(** ** The claims on concrete runs *)

(** C1 as stated fails.  A body that is the JSON text [null] is valid JSON
    and is answered 500: by [errorHandler] when the body parser runs in its
    default strict mode (as it does for a number, too), and by the handler
    itself if a [null] body reaches it. *)
Lemma null_body_answers_500 :
  fst (app (VObj []) (http_post (JsonText VNull)) (started production ∅ []))
  = Normal {| statusCode := 500;
              body := WebhookFailure false "Internal server error"
                        (Some "Something went wrong"%string) |}
  /\ fst (app (VObj []) (http_post (JsonText (VNum 42))) (started production ∅ []))
     = Normal {| statusCode := 500;
                 body := WebhookFailure false "Internal server error"
                           (Some "Something went wrong"%string) |}
  /\ fst (handleWebhook (post VNull) (started production ∅ []))
     = Normal {| statusCode := 500;
                 body := WebhookFailure false "Error processing webhook"
                           (Some "Cannot read properties of null (reading 'message')"%string) |}.
Proof. repeat split; vm_compute; reflexivity. Qed.

Lemma post_income_acknowledged_witness :
  object_or_array (req_body (post hi)) = true
  /\ exists resp st',
       handleWebhook (post hi) (started production ∅ []) = (Normal resp, st')
       /\ statusCode resp = 200
       /\ res_success resp = Some true
       /\ res_timestamp resp = Some (clock (world (started production ∅ []))).
Proof.
  split; [reflexivity |].
  apply (post_income_acknowledged (post hi) (started production ∅ []));
    reflexivity.
Defined.

(** C2 as stated fails.  For the payload with [message = hi] the response
    carries the fixed acknowledgement text, not [hi]; and a [message] field
    that is present but empty is passed over for the [text] field. *)
Lemma returned_message_is_fixed :
  fst (handleWebhook (post hi) (started production ∅ []))
  = Normal {| statusCode := 200;
              body := WebhookAck true "Webhook received and processed"
                        1700000000000 (Some 1%N) |}
  /\ fst (derive_message empty_message (boot production ∅ []))
     = Normal (VStr "hi")
  /\ first_present_message empty_message = VStr "".
Proof. repeat split; vm_compute; reflexivity. Qed.

Lemma derived_message_first_truthy_witness :
  readable hi = true
  /\ exists m resp st',
       derive_message (req_body (post hi)) (started production ∅ [])
       = (Normal m, started production ∅ [])
       /\ truthy m = true
       /\ m <> VStr ""
       /\ (truthy (field (req_body (post hi)) "message") = true ->
           m = field (req_body (post hi)) "message")
       /\ (truthy (field (req_body (post hi)) "message") = false ->
           truthy (field (req_body (post hi)) "text") = true ->
           m = field (req_body (post hi)) "text")
       /\ (truthy (field (req_body (post hi)) "message") = false ->
           truthy (field (req_body (post hi)) "text") = false ->
           m = JSON_stringify (req_body (post hi)))
       /\ handleWebhook (post hi) (started production ∅ []) = (Normal resp, st')
       /\ res_message resp = Some "Webhook received and processed"%string
       /\ (forall c,
             webhooksCollection (this (started production ∅ [])) = Some c ->
             next_call (started production ∅ []) = None ->
             exists doc,
               documents (data_of (mongo (world st')) c)
               = documents (data_of (mongo (world (started production ∅ []))) c)
                 ++ [doc]
               /\ message doc = m).
Proof.
  split; [reflexivity |].
  apply (derived_message_first_truthy (post hi) (started production ∅ [])).
  reflexivity.
Defined.

(** C3: the code at the failing input.  The store is connected and the
    insert is rejected.  The failure is logged and swallowed and the answer is
    200 with [success: true], nothing is stored; but the answer carries an
    [id]: the one the driver wrote into the record before the insert was
    sent. *)
Theorem failed_insert_answers_an_id :
  webhooksCollection
    (this (started production ∅
             [None; None; None; None; None; None; Some network_down]))
  = Some {| collection_db := "hooks"; collectionName := "gpt-webhook-requests" |}
  /\ fst (handleWebhook (post hi)
            (started production ∅
               [None; None; None; None; None; None; Some network_down]))
     = Normal {| statusCode := 200;
                 body := WebhookAck true "Webhook received and processed"
                           1700000000000 (Some 1%N) |}
  /\ documents
       (data_of
          (mongo (world (snd (handleWebhook (post hi)
                                (started production ∅
                                   [None; None; None; None; None; None;
                                    Some network_down])))))
          {| collection_db := "hooks"; collectionName := "gpt-webhook-requests" |})
     = []
  /\ last (console (world (snd (handleWebhook (post hi)
                                  (started production ∅
                                     [None; None; None; None; None; None;
                                      Some network_down])))))
     = Some {| log_stream := Stderr;
               log_args := [LText "Failed to save to MongoDB:";
                            LThrown network_down] |}.
Proof. repeat split; vm_compute; reflexivity. Qed.

(** C4: the code at the failing input.  The client connects, listing the
    collections fails: the server has no collection to write to, logs that it
    continues without persistence, stores nothing of the next webhook, and
    [/health] still reports [connected]. *)
Theorem health_connected_after_failed_initialization :
  webhooksCollection (this (started production ∅ [None; None; Some network_down]))
  = None
  /\ fst (health (started production ∅ [None; None; Some network_down]))
     = Normal {| statusCode := 200;
                 body := HealthReport "OK" 1700000000000 "connected" |}
  /\ fst (handleWebhook (post hi)
            (started production ∅ [None; None; Some network_down]))
     = Normal {| statusCode := 200;
                 body := WebhookAck true "Webhook received and processed"
                           1700000000000 None |}
  /\ mongo (world (snd (handleWebhook (post hi)
                          (started production ∅ [None; None; Some network_down]))))
     = ∅.
Proof. repeat split; vm_compute; reflexivity. Qed.

(** C5: the code at the failing input.  In production a TypeError raised in
    the handler (the body is [null], or [undefined] as Express 5 leaves it
    when nothing was parsed) is answered with its message, while
    [errorHandler] answers the same error with the generic text. *)
Theorem handler_discloses_exception_in_production :
  NODE_ENV (env (world (started production ∅ []))) = Some "production"%string
  /\ fst (handleWebhook (post VNull) (started production ∅ []))
     = Normal {| statusCode := 500;
                 body := WebhookFailure false "Error processing webhook"
                           (Some "Cannot read properties of null (reading 'message')"%string) |}
  /\ fst (app VUndefined (http_post NoBody) (started production ∅ []))
     = Normal {| statusCode := 500;
                 body := WebhookFailure false "Error processing webhook"
                           (Some "Cannot read properties of undefined (reading 'message')"%string) |}
  /\ fst (errorHandler
            (TypeError "Cannot read properties of null (reading 'message')")
            (started production ∅ []))
     = Normal {| statusCode := 500;
                 body := WebhookFailure false "Internal server error"
                           (Some "Something went wrong"%string) |}.
Proof. repeat split; vm_compute; reflexivity. Qed.

(** C6: the code at the failing input.  The connection string names no
    database, and the pattern takes host and port for one: the fallback
    [shared-db] is not used.  With a database in the string both agree. *)
Theorem host_taken_for_database :
  named_database "mongodb://localhost:27017" = None
  /\ extractDatabaseName "mongodb://localhost:27017" = Some "localhost:27017"%string
  /\ resolveDatabaseName "mongodb://localhost:27017" = "localhost:27017"%string
  /\ db (this (started no_database_in_url ∅ []))
     = Some {| databaseName := "localhost:27017" |}
  /\ named_database "mongodb://db.internal:27017/hooks" = Some "hooks"%string
  /\ extractDatabaseName "mongodb://db.internal:27017/hooks" = Some "hooks"%string
  /\ resolveDatabaseName "mongodb://db.internal:27017/" = "shared-db"%string.
Proof. repeat split; vm_compute; reflexivity. Qed.

(** C7 as stated fails.  The collection exists and has no index: startup
    succeeds, the adapter uses the collection, and the two indexes are still
    absent.  The first version of the server does not know the collection at
    all: it writes to [webhooks] and creates nothing. *)
Lemma existing_collection_gets_no_indexes :
  mongo (world (started production bare_collection []))
    !! ("hooks"%string, "gpt-webhook-requests"%string)
  = Some {| indexes := []; documents := [] |}
  /\ webhooksCollection (this (started production bare_collection []))
     = Some {| collection_db := "hooks"; collectionName := "gpt-webhook-requests" |}
  /\ driver_calls (world (started production bare_collection []))
     = [NewMongoClient "mongodb://db.internal:27017/hooks" {| auth := None |};
        Connect;
        ListCollections {| databaseName := "hooks" |} "gpt-webhook-requests"]
  /\ webhooksCollection
       (this (snd (SrcIndex.connectToMongoDB (boot production ∅ []))))
     = Some {| collection_db := "webhook-server"; collectionName := "webhooks" |}
  /\ mongo (world (snd (SrcIndex.connectToMongoDB (boot production ∅ [])))) = ∅.
Proof. repeat split; vm_compute; reflexivity. Qed.

Lemma collection_ensured_witness :
  database_name_accepted
    (resolveDatabaseName "mongodb://db.internal:27017/hooks") = true
  /\ calm (schedule (world (boot production ∅ []))) = true
  /\ exists st',
       connectToMongoDB (boot production ∅ []) = (Normal tt, st')
       /\ webhooksCollection (this st')
          = Some {| collection_db := "hooks";
                    collectionName := "gpt-webhook-requests" |}
       /\ mongo (world st') !! ("hooks"%string, "gpt-webhook-requests"%string)
          = Some {| indexes := [[("timestamp"%string, -1)];
                                [("userInfo.id"%string, 1)]];
                    documents := [] |}.
Proof.
  split; [reflexivity |]. split; [reflexivity |].
  destruct (collection_ensured (boot production ∅ [])
              "mongodb://db.internal:27017/hooks" eq_refl eq_refl eq_refl eq_refl)
    as (st' & Hrun & Hwc & Hnew & _).
  exists st'. split; [exact Hrun |]. split; [exact Hwc |].
  rewrite (Hnew eq_refl). apply lookup_insert_eq.
Defined.

(** C8 as stated fails.  Two deliveries within one clock reading are stored
    with the same timestamp. *)
Lemma same_instant_same_timestamp :
  map timestamp
    (documents
       (data_of
          (mongo (world (snd (twice (post hi) 1700000000000
                                (started production ∅ [])))))
          {| collection_db := "hooks"; collectionName := "gpt-webhook-requests" |}))
  = [1700000000000; 1700000000000]
  /\ map _id
       (documents
          (data_of
             (mongo (world (snd (twice (post hi) 1700000000000
                                   (started production ∅ [])))))
             {| collection_db := "hooks";
                collectionName := "gpt-webhook-requests" |}))
     = [Some 1%N; Some 2%N].
Proof. split; vm_compute; reflexivity. Qed.

Lemma identical_payloads_stored_twice_witness :
  webhooksCollection (this (started production ∅ []))
  = Some {| collection_db := "hooks"; collectionName := "gpt-webhook-requests" |}
  /\ exists r1 r2 d1 d2 id1 id2 st',
       twice (post hi) 1700000000250 (started production ∅ [])
       = (Normal (r1, r2), st')
       /\ documents (data_of (mongo (world st'))
                       {| collection_db := "hooks";
                          collectionName := "gpt-webhook-requests" |})
          = documents (data_of (mongo (world (started production ∅ [])))
                         {| collection_db := "hooks";
                            collectionName := "gpt-webhook-requests" |})
            ++ [d1; d2]
       /\ _id d1 = Some id1 /\ _id d2 = Some id2 /\ id1 <> id2
       /\ res_id r1 = Some id1 /\ res_id r2 = Some id2
       /\ timestamp d1 = clock (world (started production ∅ []))
       /\ timestamp d2 = 1700000000250
       /\ res_timestamp r1 = Some (clock (world (started production ∅ [])))
       /\ res_timestamp r2 = Some 1700000000250
       /\ message d1 = message d2
       /\ userInfo d1 = userInfo d2
       /\ fullRequest d1 = fullRequest d2.
Proof.
  split; [reflexivity |].
  apply (identical_payloads_stored_twice (post hi) (started production ∅ [])
           {| collection_db := "hooks"; collectionName := "gpt-webhook-requests" |}
           1700000000250); reflexivity.
Defined.

Lemma credentials_need_both_witness :
  mongoUsername (this (boot password_only ∅ [])) = None
  /\ mongoPassword (this (boot password_only ∅ [])) = Some "s3cret"%string
  /\ exists st' calls lines a,
       connectToMongoDB (boot password_only ∅ []) = (Normal tt, st')
       /\ driver_calls (world st')
          = NewMongoClient "mongodb://db.internal:27017/hooks" {| auth := a |}
            :: calls
       /\ a = None
       /\ (exists calls', calls = Connect :: calls')
       /\ console (world st') = lines
       /\ ~ In auth_line lines.
Proof.
  split; [reflexivity |]. split; [reflexivity |].
  destruct (credentials_need_both (boot password_only ∅ [])
              "mongodb://db.internal:27017/hooks" eq_refl eq_refl)
    as (st' & calls & lines & a & Hrun & Hcalls & _ & Hnone & Hconn & Hcons & Hquiet).
  exists st', calls, lines, a.
  split; [exact Hrun |]. split; [exact Hcalls |].
  assert (Ha : a = None) by (apply Hnone; left; reflexivity).
  split; [exact Ha |]. split; [apply Hconn; reflexivity |].
  split; [exact Hcons |]. exact (Hquiet Ha).
Defined.

(** ** More of the server: what the handler and startup do and never do *)

Section MoreVocabulary.
Context {num : Type} `{!JSNumber num}.

(** Requests served one after the other, with their responses. *)
Fixpoint serve (reqs : list (Request num)) : M (num:=num) (list Response) :=
  match reqs with
  | [] => ret []
  | req :: rest =>
      r <- handleWebhook req ;;
      rs <- serve rest ;;
      ret (r :: rs)
  end.

(** The store [m'] holds everything [m] holds: every collection of [m] is
    still there with the same indexes, and its documents are a prefix of
    what it has now. *)
Definition grown (m m' : gmap (string * string) (CollectionData num)) : Prop :=
  forall k d,
    m !! k = Some d ->
    exists d' added,
      m' !! k = Some d'
      /\ indexes d' = indexes d
      /\ documents d' = documents d ++ added.

(** The error that ends a connection attempt, if the schedule has one: the
    client cannot be built, or it is built and cannot connect. *)
Definition connection_error (sch : list (option Thrown)) : option Thrown :=
  match sch with
  | Some e :: _ => Some e
  | None :: Some e :: _ => Some e
  | _ => None
  end.

(** An optional field is set. *)
Definition has {A} (x : option A) : bool :=
  match x with Some _ => true | None => false end.

(** The handles of the server hang together: a collection only with a
    database handle, a database handle only with a client. *)
Definition consistent (srv : WebhookServer) : bool :=
  implb (has (webhooksCollection srv)) (has (db srv))
  && implb (has (db srv)) (has (client srv)).

(** A computation that leaves the database handle and the client alone. *)
Definition steady {A} (m : M (num:=num) A) : Prop :=
  forall st,
    db (this (snd (m st))) = db (this st)
    /\ client (this (snd (m st))) = client (this st).

End MoreVocabulary.

(** [s] has no slash. *)
Fixpoint no_slash (s : string) : bool :=
  match s with
  | EmptyString => true
  | String c rest => negb (Ascii.eqb c "/") && no_slash rest
  end.

Section MoreProperties.
Context {num : Type} `{!JSNumber num}.

Ltac handler_run :=
  unfold handleWebhook; mrun;
  rewrite derive_message_readable by assumption;
  rewrite derive_userInfo_readable by assumption;
  mrun.

(** Everything a webhook with a readable body does to the state. *)
Lemma handleWebhook_effects (req : Request num) (st : State num) :
  readable (req_body req) = true ->
  exists resp st',
    handleWebhook req st = (Normal resp, st')
    /\ statusCode resp = 200
    /\ res_success resp = Some true
    /\ this st' = this st
    /\ clock (world st') = clock (world st)
    /\ env (world st') = env (world st)
    /\ match webhooksCollection (this st) with
       | None =>
           res_id resp = None
           /\ driver_calls (world st') = driver_calls (world st)
           /\ schedule (world st') = schedule (world st)
           /\ next_id (world st') = next_id (world st)
           /\ mongo (world st') = mongo (world st)
       | Some c =>
           driver_calls (world st')
           = driver_calls (world st)
             ++ [InsertOne c (with_id (event_of req (clock (world st)))
                                      (next_id (world st)))]
           /\ schedule (world st') = tail (schedule (world st))
           /\ next_id (world st') = N.succ (next_id (world st))
           /\ mongo (world st')
              = match next_call st with
                | Some _ => mongo (world st)
                | None =>
                    <[key_of c :=
                       {| indexes := indexes (data_of (mongo (world st)) c);
                          documents :=
                            documents (data_of (mongo (world st)) c)
                            ++ [with_id (event_of req (clock (world st)))
                                        (next_id (world st))] |}]>
                      (mongo (world st))
                end
       end.
Proof.
  intros Hr. handler_run.
  destruct (webhooksCollection (this st)) as [c |] eqn:Hc.
  - destruct (next_call st) as [e |] eqn:Hn.
    + rewrite insertOne_fails
        with (e := e) (doc := event_of req (clock (world st)));
        [| apply lookup_new | reflexivity | exact Hn].
      mrun.
      rewrite deref_some
        with (r := with_id (event_of req (clock (world st))) (next_id (world st)))
        by (cbn; eapply lookup_stamped, lookup_new).
      eexists _, _; split; [reflexivity |]. cbn.
      repeat split; reflexivity.
    + rewrite insertOne_succeeds
        with (doc := event_of req (clock (world st)));
        [| apply lookup_new | reflexivity | exact Hn].
      mrun.
      rewrite assign_id_some
        with (r := with_id (event_of req (clock (world st))) (next_id (world st)))
        by (cbn; eapply lookup_stamped, lookup_new).
      mrun.
      rewrite deref_some
        with (r := with_id (with_id (event_of req (clock (world st)))
                              (next_id (world st))) (next_id (world st)))
        by (cbn; eapply lookup_stamped, lookup_stamped, lookup_new).
      eexists _, _; split; [reflexivity |]. cbn.
      repeat split; reflexivity.
  - mrun.
    rewrite deref_some with (r := event_of req (clock (world st)))
      by apply lookup_new.
    eexists _, _; split; [reflexivity |]. cbn.
    repeat split; reflexivity.
Qed.

(** What a webhook with an unreadable body does: nothing but logging. *)
Lemma handleWebhook_unreadable_effects (req : Request num) (st : State num) :
  readable (req_body req) = false ->
  exists resp st',
    handleWebhook req st = (Normal resp, st')
    /\ statusCode resp = 500
    /\ res_success resp = Some false
    /\ res_message resp = Some "Error processing webhook"%string
    /\ this st' = this st
    /\ driver_calls (world st') = driver_calls (world st)
    /\ schedule (world st') = schedule (world st)
    /\ mongo (world st') = mongo (world st)
    /\ res_id resp = None.
Proof.
  intros Hr. unfold handleWebhook, derive_message, js_or. mrun.
  destruct (req_body req); try discriminate; cbn;
    (eexists _, _; split; [reflexivity |]; cbn; repeat split; reflexivity).
Qed.

(** X1.  [handleWebhook] never throws and never changes the server object:
    it answers 200 with [success: true] when the fields of the body can be
    read, and 500 with [success: false] exactly when the body is [null] or
    [undefined]. *)
Theorem webhook_status_by_body (req : Request num) (st : State num) :
  exists resp st',
    handleWebhook req st = (Normal resp, st')
    /\ statusCode resp = (if readable (req_body req) then 200 else 500)
    /\ res_success resp = Some (readable (req_body req))
    /\ this st' = this st.
Proof.
  destruct (readable (req_body req)) eqn:Hr.
  - destruct (handleWebhook_effects req st Hr)
      as (resp & st' & Hrun & Hs & Hok & Hthis & _).
    exists resp, st'. auto.
  - destruct (handleWebhook_unreadable_effects req st Hr)
      as (resp & st' & Hrun & Hs & Hok & _ & Hthis & _).
    exists resp, st'. auto.
Qed.

(** X2.  One webhook is at most one driver call, and there is no retry: with
    a collection and a readable body the only call is one [insertOne] into
    that collection, whether it succeeds or fails; with no collection, or
    with a body that cannot be read, the driver is not called and the store
    is left as it is. *)
Theorem webhook_single_insert (req : Request num) (st : State num) :
  exists resp st' calls,
    handleWebhook req st = (Normal resp, st')
    /\ driver_calls (world st') = driver_calls (world st) ++ calls
    /\ match webhooksCollection (this st), readable (req_body req) with
       | Some c, true =>
           calls = [InsertOne c (with_id (event_of req (clock (world st)))
                                         (next_id (world st)))]
       | _, _ => calls = [] /\ mongo (world st') = mongo (world st)
       end.
Proof.
  destruct (readable (req_body req)) eqn:Hr.
  - destruct (handleWebhook_effects req st Hr)
      as (resp & st' & Hrun & _ & _ & _ & _ & _ & Hcase).
    destruct (webhooksCollection (this st)) as [c |].
    + destruct Hcase as (Hcalls & _).
      eexists resp, st', _. split; [exact Hrun |]. split; [exact Hcalls |].
      reflexivity.
    + destruct Hcase as (_ & Hcalls & _ & _ & Hm).
      exists resp, st', []. rewrite app_nil_r. auto.
  - destruct (handleWebhook_unreadable_effects req st Hr)
      as (resp & st' & Hrun & _ & _ & _ & _ & Hcalls & _ & Hm & _).
    exists resp, st', []. rewrite app_nil_r.
    split; [exact Hrun |]. split; [exact Hcalls |].
    destruct (webhooksCollection (this st)); auto.
Qed.

Lemma grown_refl (m : gmap (string * string) (CollectionData num)) : grown m m.
Proof. intros k d Hk. exists d, []. rewrite app_nil_r. auto. Qed.

Lemma grown_trans (m1 m2 m3 : gmap (string * string) (CollectionData num)) :
  grown m1 m2 -> grown m2 m3 -> grown m1 m3.
Proof.
  intros H12 H23 k d Hk.
  destruct (H12 k d Hk) as (d2 & a2 & Hk2 & Hi2 & Hd2).
  destruct (H23 k d2 Hk2) as (d3 & a3 & Hk3 & Hi3 & Hd3).
  exists d3, (a2 ++ a3). split; [exact Hk3 |].
  split; [congruence |]. rewrite Hd3, Hd2, app_assoc. reflexivity.
Qed.

Lemma grown_append (m : gmap (string * string) (CollectionData num)) c doc :
  grown m (<[key_of c := {| indexes := indexes (data_of m c);
                            documents := documents (data_of m c) ++ [doc] |}]> m).
Proof.
  intros k d Hk. destruct (decide (key_of c = k)) as [<- | Hne].
  - rewrite lookup_insert_eq. unfold data_of. rewrite Hk.
    eexists _, [doc]. split; [reflexivity |]. split; reflexivity.
  - rewrite lookup_insert_ne by exact Hne.
    exists d, []. rewrite app_nil_r. auto.
Qed.

(** X3.  A webhook only ever appends to the store: whatever the request and
    the outcome of the insert, every collection that existed still exists
    with the same indexes, and the documents it had are still there, in
    order, before anything new. *)
Theorem webhook_append_only (req : Request num) (st : State num) :
  grown (mongo (world st)) (mongo (world (snd (handleWebhook req st)))).
Proof.
  destruct (readable (req_body req)) eqn:Hr.
  - destruct (handleWebhook_effects req st Hr)
      as (resp & st' & Hrun & _ & _ & _ & _ & _ & Hcase).
    rewrite Hrun. cbn [snd].
    destruct (webhooksCollection (this st)) as [c |].
    + destruct Hcase as (_ & _ & _ & Hm). rewrite Hm.
      destruct (next_call st); [apply grown_refl | apply grown_append].
    + destruct Hcase as (_ & _ & _ & _ & Hm). rewrite Hm. apply grown_refl.
  - destruct (handleWebhook_unreadable_effects req st Hr)
      as (resp & st' & Hrun & _ & _ & _ & _ & _ & _ & Hm & _).
    rewrite Hrun. cbn [snd]. rewrite Hm. apply grown_refl.
Qed.

(** X4.  The record a webhook hands to [insertOne] is a snapshot of the
    request, whether the insert then succeeds or fails: [userInfo] is the
    [user] field if truthy, else the [userInfo] field if truthy, else the
    object made of the requester address and the User-Agent header;
    [fullRequest] holds headers, body, query, method and url as received;
    [timestamp] is the clock reading at receipt and the timestamp of the
    response; and the identifier the driver has written into it is the [id]
    of the response. *)
Theorem request_record_snapshot (req : Request num) (st : State num) c :
  readable (req_body req) = true ->
  webhooksCollection (this st) = Some c ->
  exists resp st' doc,
    handleWebhook req st = (Normal resp, st')
    /\ driver_calls (world st') = driver_calls (world st) ++ [InsertOne c doc]
    /\ _id doc = res_id resp
    /\ res_id resp = Some (next_id (world st))
    /\ timestamp doc = clock (world st)
    /\ res_timestamp resp = Some (timestamp doc)
    /\ fullRequest doc
       = {| fr_headers := req_headers req; fr_body := req_body req;
            fr_query := req_query req; fr_method := req_method req;
            fr_url := req_url req |}
    /\ (truthy (field (req_body req) "user") = true ->
        userInfo doc = field (req_body req) "user")
    /\ (truthy (field (req_body req) "user") = false ->
        truthy (field (req_body req) "userInfo") = true ->
        userInfo doc = field (req_body req) "userInfo")
    /\ (truthy (field (req_body req) "user") = false ->
        truthy (field (req_body req) "userInfo") = false ->
        userInfo doc
        = VObj [("ip"%string, string_or_undefined (req_ip req));
                ("userAgent"%string,
                 string_or_undefined (header (req_headers req) "user-agent"))]).
Proof.
  intros Hr Hc.
  pose proof (handleWebhook_insert_sent req st c Hr Hc) as Hsent.
  assert (Hrun : exists st',
             handleWebhook req st
             = (Normal (acknowledgement (clock (world st))
                          (Some (next_id (world st)))), st')).
  { destruct (next_call st) as [e |] eqn:Hn.
    - destruct (handleWebhook_insert_fails req st c e Hr Hc Hn) as (st' & H & _).
      exists st'. exact H.
    - destruct (handleWebhook_insert_succeeds req st c Hr Hc Hn) as (st' & H & _).
      exists st'. exact H. }
  destruct Hrun as (st' & Hrun). rewrite Hrun in Hsent. cbn [snd] in Hsent.
  eexists _, st', _. split; [exact Hrun |]. split; [exact Hsent |].
  repeat split; try reflexivity.
  - intros H1. cbn. unfold first_truthy_userInfo. rewrite H1. reflexivity.
  - intros H1 H2. cbn. unfold first_truthy_userInfo. rewrite H1, H2. reflexivity.
  - intros H1 H2. cbn. unfold first_truthy_userInfo. rewrite H1, H2. reflexivity.
Qed.

Lemma serve_without_collection (reqs : list (Request num)) (st : State num) :
  webhooksCollection (this st) = None ->
  exists resps st',
    serve reqs st = (Normal resps, st')
    /\ this st' = this st
    /\ driver_calls (world st') = driver_calls (world st)
    /\ mongo (world st') = mongo (world st)
    /\ length resps = length reqs
    /\ Forall (fun resp => res_id resp = None) resps.
Proof.
  revert st. induction reqs as [| req rest IH]; intros st Hc.
  - exists [], st. simpl. repeat split; auto.
  - simpl. unfold bind at 1.
    assert (Hstep : exists resp st1,
               handleWebhook req st = (Normal resp, st1)
               /\ res_id resp = None
               /\ this st1 = this st
               /\ driver_calls (world st1) = driver_calls (world st)
               /\ mongo (world st1) = mongo (world st)).
    { destruct (readable (req_body req)) eqn:Hr.
      - destruct (handleWebhook_effects req st Hr)
          as (resp & st1 & Hrun & _ & _ & Hthis & _ & _ & Hcase).
        rewrite Hc in Hcase. destruct Hcase as (Hid & Hcalls & _ & _ & Hm).
        exists resp, st1. auto.
      - destruct (handleWebhook_unreadable_effects req st Hr)
          as (resp & st1 & Hrun & _ & _ & _ & Hthis & Hcalls & _ & Hm & Hid).
        exists resp, st1. auto. }
    destruct Hstep as (resp & st1 & Hrun & Hid & Hthis & Hcalls & Hm).
    rewrite Hrun.
    destruct (IH st1) as (resps & st' & Hserve & Hthis' & Hcalls' & Hm' & Hlen & Hall);
      [rewrite Hthis; exact Hc |].
    unfold bind. rewrite Hserve. unfold ret.
    exists (resp :: resps), st'. split; [reflexivity |].
    repeat split; try congruence.
    + simpl. congruence.
    + constructor; assumption.
Qed.

(** X7.  With no connection string (unset or empty) the server never calls
    the driver: startup makes no call and sets nothing, and whatever
    webhooks follow, each is answered without [id], nothing is stored, and
    [/health] keeps reporting [not connected]. *)
Theorem unconfigured_never_calls_driver (reqs : list (Request num))
    (st : State num) :
  truthy_string (mongoUrl (this st)) = false ->
  db (this st) = None ->
  webhooksCollection (this st) = None ->
  exists resps st',
    (connectToMongoDB ;; serve reqs) st = (Normal resps, st')
    /\ driver_calls (world st') = driver_calls (world st)
    /\ mongo (world st') = mongo (world st)
    /\ length resps = length reqs
    /\ Forall (fun resp => res_id resp = None) resps
    /\ fst (health st')
       = Normal {| statusCode := 200;
                   body := HealthReport "OK" (clock (world st')) "not connected" |}.
Proof.
  intros Hurl Hdb Hc.
  destruct (connectToMongoDB_unconfigured st Hurl) as (st1 & Hrun & Hthis & Hcalls).
  assert (Hm1 : mongo (world st1) = mongo (world st)).
  { revert Hrun. unfold connectToMongoDB. mrun.
    destruct (mongoUrl (this st)) as [url |]; simpl in Hurl.
    - destruct (String.eqb url ""); [| discriminate].
      intros [= <-]. reflexivity.
    - intros [= <-]. reflexivity. }
  destruct (serve_without_collection reqs st1)
    as (resps & st' & Hserve & Hthis' & Hcalls' & Hm' & Hlen & Hall);
    [rewrite Hthis; exact Hc |].
  exists resps, st'. unfold bind. rewrite Hrun, Hserve.
  split; [reflexivity |]. repeat split; try congruence.
  rewrite health_reports_db, Hthis', Hthis, Hdb. reflexivity.
Qed.

(** X8.  A connection that cannot be made (the client cannot be built, or
    it cannot connect) does not stop startup: [connectToMongoDB] ends
    normally, logs the error and that it continues without persistence, and
    leaves database handle, collection and store as they were; a server
    that had no handle answers [not connected] on [/health]. *)
Theorem failed_connection_degrades (st : State num) url e :
  mongoUrl (this st) = Some url ->
  String.eqb url "" = false ->
  connection_error (schedule (world st)) = Some e ->
  exists st',
    connectToMongoDB st = (Normal tt, st')
    /\ db (this st') = db (this st)
    /\ webhooksCollection (this st') = webhooksCollection (this st)
    /\ mongo (world st') = mongo (world st)
    /\ logged Stderr [LText "Failed to connect to MongoDB:"; LThrown e] st'
    /\ logged Stdout [LText "Continuing without database persistence..."] st'
    /\ (db (this st) = None ->
        fst (health st')
        = Normal {| statusCode := 200;
                    body := HealthReport "OK" (clock (world st'))
                              "not connected" |}).
Proof.
  intros Hurl Hne Herr. unfold connectToMongoDB. mrun. rewrite Hurl, Hne.
  match goal with
  | |- context [mongoOptions (this st) ?s] =>
      destruct (mongoOptions_result (this st) s)
        as (st2 & Heq & Hthis & Hsch & Hcalls & Hmongo & Hcons);
      rewrite Heq
  end.
  cbn in Hthis, Hsch, Hcalls, Hmongo, Hcons.
  unfold new_MongoClient, client_connect. mrun.
  destruct (schedule (world st)) as [| [e1 |] [| [e2 |] rest]] eqn:Hs;
    simpl in Herr; try discriminate; injection Herr as ->.
  - rewrite driver_fails with (e := e)
      by (unfold next_call; rewrite Hsch; reflexivity).
    mrun. eexists; split; [reflexivity |]. cbn. rewrite Hthis, Hmongo.
    repeat split; try reflexivity;
      try (unfold logged; cbn; rewrite !in_app_iff; simpl; tauto).
    intros Hdb. rewrite Hdb. reflexivity.
  - rewrite driver_fails with (e := e)
      by (unfold next_call; rewrite Hsch; reflexivity).
    mrun. eexists; split; [reflexivity |]. cbn. rewrite Hthis, Hmongo.
    repeat split; try reflexivity;
      try (unfold logged; cbn; rewrite !in_app_iff; simpl; tauto).
    intros Hdb. rewrite Hdb. reflexivity.
  - rewrite driver_fails with (e := e)
      by (unfold next_call; rewrite Hsch; reflexivity).
    mrun. eexists; split; [reflexivity |]. cbn. rewrite Hthis, Hmongo.
    repeat split; try reflexivity;
      try (unfold logged; cbn; rewrite !in_app_iff; simpl; tauto).
    intros Hdb. rewrite Hdb. reflexivity.
  - rewrite driver_succeeds by (unfold next_call; rewrite Hsch; reflexivity).
    mrun.
    rewrite driver_fails with (e := e)
      by (unfold next_call; cbn; rewrite Hsch; reflexivity).
    mrun. eexists; split; [reflexivity |]. cbn. rewrite Hthis, Hmongo.
    repeat split; try reflexivity;
      try (unfold logged; cbn; rewrite !in_app_iff; simpl; tauto).
    intros Hdb. rewrite Hdb. reflexivity.
Qed.

(** X9.  Startup is idempotent on the store: a process that starts with
    every driver call succeeding, against the store a successful startup
    left behind, finds the collection and changes nothing. *)
Theorem restart_changes_nothing (st st2 : State num) url :
  mongoUrl (this st) = Some url ->
  mongoUrl (this st2) = Some url ->
  String.eqb url "" = false ->
  calm (schedule (world st)) = true ->
  calm (schedule (world st2)) = true ->
  mongo (world st2) = mongo (world (snd (connectToMongoDB st))) ->
  mongo (world (snd (connectToMongoDB st2))) = mongo (world st2)
  /\ webhooksCollection (this (snd (connectToMongoDB st2)))
     = webhooksCollection (this (snd (connectToMongoDB st))).
Proof.
  intros Hurl Hurl2 Hne Hcalm Hcalm2 Hsame.
  destruct (connectToMongoDB_calm st url Hurl Hne Hcalm)
    as (st1 & Hrun & _ & Hwc & _ & _ & Hm).
  destruct (connectToMongoDB_calm st2 url Hurl2 Hne Hcalm2)
    as (st3 & Hrun2 & _ & Hwc2 & _ & _ & Hm2).
  rewrite Hrun in Hsame. rewrite Hrun, Hrun2. cbn [snd] in *.
  split; [| congruence].
  rewrite Hm2.
  assert (Hthere : is_Some (mongo (world st2) !! (resolveDatabaseName url, requests))).
  { rewrite Hsame, Hm.
    destruct (mongo (world st) !! (resolveDatabaseName url, requests)) eqn:Hk.
    - rewrite Hk. eauto.
    - rewrite lookup_insert_eq. eauto. }
  destruct Hthere as [d Hd]. rewrite Hd. reflexivity.
Qed.

(** X10.  When the resolved database name is one the driver takes, the
    collection is new and the first [createIndex] fails, the collection
    handle is already set: startup logs that it continues without
    persistence, but the server holds the database handle and the
    collection, which now exists without indexes. *)
Theorem index_failure_keeps_collection (st : State num) url e rest :
  mongoUrl (this st) = Some url ->
  String.eqb url "" = false ->
  database_name_accepted (resolveDatabaseName url) = true ->
  schedule (world st) = None :: None :: None :: None :: Some e :: rest ->
  mongo (world st) !! (resolveDatabaseName url, requests) = None ->
  exists st',
    connectToMongoDB st = (Normal tt, st')
    /\ webhooksCollection (this st')
       = Some {| collection_db := resolveDatabaseName url;
                 collectionName := requests |}
    /\ db (this st') = Some {| databaseName := resolveDatabaseName url |}
    /\ mongo (world st')
       = <[(resolveDatabaseName url, requests) :=
            {| indexes := []; documents := [] |}]> (mongo (world st))
    /\ schedule (world st') = rest
    /\ logged Stdout [LText "Continuing without database persistence..."] st'.
Proof.
  intros Hurl Hne _ Hs Hk. unfold connectToMongoDB. mrun. rewrite Hurl, Hne.
  match goal with
  | |- context [mongoOptions (this st) ?s] =>
      destruct (mongoOptions_result (this st) s)
        as (st2 & Heq & Hthis & Hsch & Hcalls & Hmongo & Hcons);
      rewrite Heq
  end.
  cbn in Hthis, Hsch, Hcalls, Hmongo, Hcons. rewrite Hs in Hsch.
  unfold new_MongoClient, client_connect. mrun.
  rewrite driver_succeeds by (unfold next_call; rewrite Hsch; reflexivity). mrun.
  rewrite driver_succeeds by (unfold next_call; cbn; rewrite Hsch; reflexivity).
  mrun. unfold initializeCollections. mrun.
  change (appPrefix ++ "-requests")%string with requests.
  rewrite listCollections_succeeds
    by (unfold next_call; cbn; rewrite Hsch; reflexivity).
  cbn [after_call this world heap mongo client_db databaseName].
  rewrite Hmongo, Hk. cbn [length Nat.eqb].
  rewrite createCollection_succeeds;
    [| unfold next_call; cbn; rewrite Hsch; reflexivity
     | cbn [after_call this world mongo client_db databaseName];
       exact Hk].
  mrun.
  rewrite createIndex_fails with (e := e)
    by (unfold next_call; cbn; rewrite Hsch; reflexivity).
  mrun. eexists; split; [reflexivity |]. cbn. rewrite ?Hmongo, ?Hsch.
  repeat split; try reflexivity.
  unfold logged. cbn. rewrite !in_app_iff. simpl. tauto.
Qed.

(** *** The handles hang together *)

Lemma steady_ret {A} (a : A) : steady (num:=num) (ret a).
Proof. intros st. split; reflexivity. Qed.

Lemma steady_throw {A} e : steady (num:=num) (throw (A:=A) e).
Proof. intros st. split; reflexivity. Qed.

Lemma steady_bind {A B} (m : M (num:=num) A) (k : A -> M (num:=num) B) :
  steady m -> (forall a, steady (k a)) -> steady (bind m k).
Proof.
  intros Hm Hk st. unfold bind. specialize (Hm st).
  destruct (m st) as [[a | e] st1]; simpl in *; [| exact Hm].
  destruct (Hk a st1) as [Hd Hc]. destruct Hm as [Hd1 Hc1].
  split; congruence.
Qed.

Lemma steady_try_catch {A} (m : M (num:=num) A) h :
  steady m -> (forall e, steady (h e)) -> steady (try_catch m h).
Proof.
  intros Hm Hh st. unfold try_catch. specialize (Hm st).
  destruct (m st) as [[a | e] st1]; simpl in *; [exact Hm |].
  destruct (Hh e st1) as [Hd Hc]. destruct Hm as [Hd1 Hc1].
  split; congruence.
Qed.

Lemma steady_get_this : steady (num:=num) get_this.
Proof. intros st. split; reflexivity. Qed.

Lemma steady_get_world : steady (num:=num) get_world.
Proof. intros st. split; reflexivity. Qed.

Lemma steady_put_world w : steady (num:=num) (put_world w).
Proof. intros st. split; reflexivity. Qed.

Lemma steady_emit s (args : list (LogArg num)) : steady (emit s args).
Proof. intros st. split; reflexivity. Qed.

Lemma steady_driver call : steady (num:=num) (driver call).
Proof.
  intros st. unfold driver. mrun.
  destruct (schedule (world st)) as [| [e |] rest]; split; reflexivity.
Qed.

Lemma steady_set_mongo m : steady (num:=num) (set_mongo m).
Proof. intros st. split; reflexivity. Qed.

Lemma steady_set_webhooksCollection c :
  steady (num:=num) (set_webhooksCollection c).
Proof. intros st. split; reflexivity. Qed.

Create HintDb steady.

#[local] Hint Resolve steady_ret steady_throw steady_get_this steady_get_world
  steady_put_world steady_emit steady_driver steady_set_mongo
  steady_set_webhooksCollection : steady.

Ltac steady_steps :=
  repeat first
    [ solve [ auto with steady ]
    | apply steady_try_catch; [| intros ? ]
    | apply steady_bind; [| intros ? ]
    | match goal with
      | |- steady (match ?x with _ => _ end) => destruct x
      end ].

Lemma steady_listCollections d name : steady (num:=num) (listCollections d name).
Proof. unfold listCollections. steady_steps. Qed.

Lemma steady_createCollection d name : steady (num:=num) (createCollection d name).
Proof. unfold createCollection. steady_steps. Qed.

Lemma steady_createIndex c spec : steady (num:=num) (createIndex c spec).
Proof. unfold createIndex. steady_steps. Qed.

#[local] Hint Resolve steady_listCollections steady_createCollection
  steady_createIndex : steady.

(** Whatever fails in it, [initializeCollections] only ever sets the
    collection. *)
Lemma steady_initializeCollections : steady (num:=num) initializeCollections.
Proof.
  unfold initializeCollections, console_log, console_error. steady_steps.
Qed.

Lemma connectToMongoDB_consistent (st : State num) :
  consistent (this st) = true ->
  consistent (this (snd (connectToMongoDB st))) = true.
Proof.
  intros Hcons. unfold connectToMongoDB. mrun.
  destruct (mongoUrl (this st)) as [url |]; [| exact Hcons].
  destruct (String.eqb url ""); [exact Hcons |].
  match goal with
  | |- context [mongoOptions (this st) ?s] =>
      destruct (mongoOptions_result (this st) s)
        as (st2 & Heq & Hthis & Hsch & Hcalls & Hmongo & Hc);
      rewrite Heq
  end.
  cbn in Hthis. unfold new_MongoClient, client_connect. mrun.
  destruct (next_call st2) as [e1 |] eqn:Hn1.
  { rewrite (driver_fails _ _ _ Hn1). cbn. rewrite Hthis. exact Hcons. }
  rewrite (driver_succeeds _ _ Hn1). mrun.
  match goal with
  | |- context [driver Connect ?s] =>
      destruct (next_call s) as [e2 |] eqn:Hn2;
      [ rewrite (driver_fails _ s e2 Hn2) | rewrite (driver_succeeds _ s Hn2) ]
  end; mrun.
  { cbn. rewrite Hthis. unfold consistent in *. cbn.
    apply andb_true_iff in Hcons as [H1 H2]. rewrite H1.
    destruct (has (db (this st))); reflexivity. }
  match goal with
  | |- context [initializeCollections ?s] =>
      destruct (steady_initializeCollections s) as [Hd Hcl];
      destruct (initializeCollections s) as [[[] | e3] st6]
  end; cbn in Hd, Hcl; cbn; unfold consistent; rewrite Hd, Hcl; cbn;
    destruct (has (webhooksCollection (this st6))); reflexivity.
Qed.

Lemma handleWebhook_this (req : Request num) (st : State num) :
  this (snd (handleWebhook req st)) = this st.
Proof.
  destruct (readable (req_body req)) eqn:Hr.
  - destruct (handleWebhook_effects req st Hr)
      as (resp & st' & Hrun & _ & _ & Hthis & _).
    rewrite Hrun. exact Hthis.
  - destruct (handleWebhook_unreadable_effects req st Hr)
      as (resp & st' & Hrun & _ & _ & _ & Hthis & _).
    rewrite Hrun. exact Hthis.
Qed.

Lemma serve_this (reqs : list (Request num)) (st : State num) :
  this (snd (serve reqs st)) = this st.
Proof.
  revert st. induction reqs as [| req rest IH]; intros st; [reflexivity |].
  simpl. unfold bind at 1. pose proof (handleWebhook_this req st) as Hh.
  destruct (handleWebhook_total req st) as [resp Hresp].
  destruct (handleWebhook req st) as [c st1]. simpl in Hresp, Hh. subst c.
  unfold bind. specialize (IH st1).
  destruct (serve rest st1) as [[rs | e] st2]; simpl in *; congruence.
Qed.

(** X11.  From the start of the process on, through startup with any
    outcome of the driver calls and through any webhooks after it, the
    server has a collection only if it has a database handle, and a
    database handle only if it has a client: whenever [/health] reports
    [not connected], webhooks are logged only. *)
Theorem handles_stay_consistent (e : Env) (w : World num)
    (h : list (WebhookRequest num)) (reqs : list (Request num)) :
  consistent
    (this (snd ((connectToMongoDB ;; serve reqs)
                  {| this := constructor e; world := w; heap := h |})))
  = true.
Proof.
  unfold bind.
  pose proof (connectToMongoDB_consistent
                {| this := constructor e; world := w; heap := h |} eq_refl) as Hc.
  destruct (connectToMongoDB_total {| this := constructor e; world := w; heap := h |})
    as [[] Hrun].
  destruct (connectToMongoDB {| this := constructor e; world := w; heap := h |})
    as [c st1]. simpl in Hrun, Hc. subst c.
  rewrite serve_this. exact Hc.
Qed.

(** X12.  In the first version of the server database handle and
    collection are set together or not at all, whatever the driver does:
    after its startup [/health] reports [connected] exactly when webhooks
    are stored. *)
Theorem first_version_sets_both_or_none (e : Env) (w : World num)
    (h : list (WebhookRequest num)) :
  has (db (this (snd (SrcIndex.connectToMongoDB
                        {| this := constructor e; world := w; heap := h |}))))
  = has (webhooksCollection
           (this (snd (SrcIndex.connectToMongoDB
                         {| this := constructor e; world := w; heap := h |})))).
Proof.
  unfold SrcIndex.connectToMongoDB. mrun. cbn [constructor mongoUrl].
  destruct (MONGO_URL e) as [url |]; [| reflexivity].
  destruct (String.eqb url ""); [reflexivity |].
  unfold new_MongoClient, client_connect. mrun.
  match goal with
  | |- context [driver (NewMongoClient ?u ?o) ?s] =>
      destruct (next_call s) as [e1 |] eqn:Hn1;
      [ rewrite (driver_fails _ s e1 Hn1) | rewrite (driver_succeeds _ s Hn1) ]
  end; mrun; [reflexivity |].
  match goal with
  | |- context [driver Connect ?s] =>
      destruct (next_call s) as [e2 |] eqn:Hn2;
      [ rewrite (driver_fails _ s e2 Hn2) | rewrite (driver_succeeds _ s Hn2) ]
  end; mrun; reflexivity.
Qed.

(** X13.  [shutdown] closes the client it has once and does nothing else:
    with a client the one driver call is [close], with none there is no
    call; the store and the server object, the client field included, are
    left as they were. *)
Theorem shutdown_only_closes (st : State num) :
  exists st',
    shutdown st = (Normal 0, st')
    /\ this st' = this st
    /\ mongo (world st') = mongo (world st)
    /\ driver_calls (world st')
       = driver_calls (world st)
         ++ (if has (client (this st)) then [Close] else []).
Proof.
  unfold shutdown, client_close. mrun.
  destruct (client (this st)) as [c |]; cbn [has].
  - match goal with
    | |- context [driver Close ?s] =>
        destruct (next_call s) as [e |] eqn:Hn;
        [ rewrite (driver_fails _ s e Hn) | rewrite (driver_succeeds _ s Hn) ]
    end; mrun; (eexists; split; [reflexivity |]; cbn; repeat split; reflexivity).
  - eexists; split; [reflexivity |]. cbn. rewrite app_nil_r.
    repeat split; reflexivity.
Qed.

End MoreProperties.

(** *** More on the pattern of [extractDatabaseName] *)

(** [s] is empty, or a question mark followed by text without slash: the
    options of a connection string. *)
Definition only_options (s : string) : bool :=
  match s with
  | EmptyString => true
  | String c q => Ascii.eqb c "?" && no_slash q
  end.

Lemma span_name_spec s :
  s = (fst (span_name s) ++ snd (span_name s))%string
  /\ all_name_chars (fst (span_name s)) = true
  /\ match snd (span_name s) with
     | EmptyString => True
     | String c _ => name_char c = false
     end.
Proof.
  induction s as [| c s IH]; simpl; [auto |].
  destruct (name_char c) eqn:Hc.
  - destruct (span_name s) as [n t]. simpl in *.
    destruct IH as (Hs & Hn & Ht). rewrite Hc. repeat split; auto.
    change (String c s = String c (n ++ t)%string). congruence.
  - simpl. rewrite Hc. auto.
Qed.

Lemma match_after_slash_sound s name :
  match_after_slash s = Some name ->
  name <> EmptyString
  /\ all_name_chars name = true
  /\ exists post, s = (name ++ post)%string /\ ends_name post = true.
Proof.
  unfold match_after_slash. intros Hm.
  destruct (span_name_spec s) as (Hs & Hn & Ht).
  destruct (span_name s) as [n t]. simpl in *.
  destruct n as [| c n]; [discriminate |].
  destruct t as [| q t].
  - injection Hm as <-. repeat split; [discriminate | exact Hn |].
    exists EmptyString. auto.
  - destruct (Ascii.eqb q "?") eqn:Hq; [| discriminate].
    injection Hm as <-. repeat split; [discriminate | exact Hn |].
    exists (String q t). simpl. auto.
Qed.

Lemma match_database_sound url name :
  match_database url = Some name ->
  name <> EmptyString
  /\ all_name_chars name = true
  /\ exists pre post,
       url = (pre ++ "/" ++ name ++ post)%string /\ ends_name post = true.
Proof.
  induction url as [| c url IH]; simpl; [discriminate |].
  destruct (Ascii.eqb c "/") eqn:Hc.
  - apply Ascii.eqb_eq in Hc. subst c.
    destruct (match_after_slash url) as [n |] eqn:Hm.
    + intros [= <-].
      destruct (match_after_slash_sound url n Hm) as (Hne & Hn & post & Hu & Hp).
      repeat split; auto. exists EmptyString, post. subst url. auto.
    + intros Hrec. destruct (IH Hrec) as (Hne & Hn & pre & post & Hu & Hp).
      repeat split; auto. exists (String "/" pre), post.
      split; [| exact Hp].
      change (String "/" url = String "/" (pre ++ "/" ++ name ++ post)%string).
      congruence.
  - intros Hrec. destruct (IH Hrec) as (Hne & Hn & pre & post & Hu & Hp).
    repeat split; auto. exists (String c pre), post.
    split; [| exact Hp].
    change (String c url = String c (pre ++ "/" ++ name ++ post)%string).
    congruence.
Qed.

Lemma match_database_no_slash s : no_slash s = true -> match_database s = None.
Proof.
  induction s as [| c s IH]; simpl; [reflexivity |].
  intros Hs. apply andb_true_iff in Hs as [Hc Hs].
  destruct (Ascii.eqb c "/"); [discriminate | auto].
Qed.

Lemma match_after_slash_options s : only_options s = true -> match_after_slash s = None.
Proof.
  destruct s as [| c q]; [reflexivity |]. simpl. intros Ho.
  apply andb_true_iff in Ho as [Hc _]. apply Ascii.eqb_eq in Hc. subst c.
  reflexivity.
Qed.

Lemma match_database_options s : only_options s = true -> match_database s = None.
Proof.
  destruct s as [| c q]; [reflexivity |]. simpl. intros Ho.
  apply andb_true_iff in Ho as [Hc Hq]. apply Ascii.eqb_eq in Hc. subst c.
  simpl. apply match_database_no_slash, Hq.
Qed.

(** X14.  Whatever [extractDatabaseName] returns is a match of its pattern:
    the name is not empty, has no slash and no question mark, stands in the
    url right after a slash, and is followed by the end of the url or by a
    question mark. *)
Theorem extracted_name_is_a_match url name :
  extractDatabaseName url = Some name ->
  name <> EmptyString
  /\ all_name_chars name = true
  /\ exists pre post,
       url = (pre ++ "/" ++ name ++ post)%string /\ ends_name post = true.
Proof.
  unfold extractDatabaseName. intros He.
  apply match_database_sound.
  destruct (match_database url); [exact He | discriminate].
Qed.

(** X15.  For a connection string [mongodb://hosts/name] or
    [mongodb://hosts/name?options], where the host list (credentials and
    ports included) and the name have no slash and no question mark and the
    name is not empty, the database resolved is [name]. *)
Theorem database_name_resolved host name rest :
  all_name_chars host = true ->
  all_name_chars name = true ->
  name <> EmptyString ->
  ends_name rest = true ->
  resolveDatabaseName ("mongodb://" ++ host ++ "/" ++ name ++ rest)%string
  = name.
Proof.
  intros Hh Hn Hne Hr. unfold resolveDatabaseName.
  rewrite extract_with_database by assumption.
  destruct name as [| c name]; [contradiction | reflexivity].
Qed.

(** X16.  For a connection string that ends with the slash after the host
    list, or has only options after it ([mongodb://hosts/] or
    [mongodb://hosts/?options], no slash in the options), no name is
    extracted and the database resolved is the fallback [shared-db]. *)
Theorem database_name_defaults host opts :
  all_name_chars host = true ->
  only_options opts = true ->
  extractDatabaseName ("mongodb://" ++ host ++ "/" ++ opts)%string = None
  /\ resolveDatabaseName ("mongodb://" ++ host ++ "/" ++ opts)%string
     = "shared-db"%string.
Proof.
  intros Hh Ho.
  assert (He : extractDatabaseName ("mongodb://" ++ host ++ "/" ++ opts)%string
               = None).
  { rewrite extract_after_scheme.
    change ("/" ++ opts)%string with (String "/" opts).
    rewrite match_after_slash_blocked by exact Hh.
    rewrite match_database_skip by exact Hh. simpl.
    rewrite match_after_slash_options by exact Ho.
    apply match_database_options, Ho. }
  split; [exact He |]. unfold resolveDatabaseName. rewrite He. reflexivity.
Qed.

(** *** The further properties on concrete runs *)

Definition unconfigured : Env :=
  {| MONGO_URL := None;
     MONGO_INITDB_ROOT_USERNAME := None;
     MONGO_INITDB_ROOT_PASSWORD := None;
     NODE_ENV := None |}.

Definition anonymous : value Z := VObj [("text", VStr "ping")].

(** A new process against the store a successful startup left behind. *)
Definition restarted : State Z :=
  boot production (mongo (world (started production ∅ []))) [].

Lemma request_record_snapshot_witness :
  exists resp st' doc,
    handleWebhook (post anonymous)
      (started production ∅ [None; None; None; None; None; None; Some network_down])
    = (Normal resp, st')
    /\ driver_calls (world st')
       = driver_calls
           (world (started production ∅
                     [None; None; None; None; None; None; Some network_down]))
         ++ [InsertOne {| collection_db := "hooks";
                          collectionName := "gpt-webhook-requests" |} doc]
    /\ _id doc = Some 1%N
    /\ res_id resp = Some 1%N
    /\ userInfo doc
       = VObj [("ip"%string, VStr "203.0.113.7");
               ("userAgent"%string, VStr "curl/8.5")]
    /\ fr_body (fullRequest doc) = anonymous.
Proof.
  destruct (request_record_snapshot (post anonymous)
              (started production ∅
                 [None; None; None; None; None; None; Some network_down])
              {| collection_db := "hooks"; collectionName := "gpt-webhook-requests" |}
              ltac:(vm_compute; reflexivity) ltac:(vm_compute; reflexivity))
    as (resp & st' & doc & Hrun & Hcalls & Hid & Hres & _ & _ & Hfull & _ & _ & Hui).
  exists resp, st', doc. split; [exact Hrun |]. split; [exact Hcalls |].
  split; [rewrite Hid; exact Hres |]. split; [exact Hres |].
  split; [exact (Hui ltac:(vm_compute; reflexivity) ltac:(vm_compute; reflexivity)) |]. rewrite Hfull. reflexivity.
Defined.

Lemma unconfigured_never_calls_driver_witness :
  exists resps st',
    (connectToMongoDB ;; serve [post hi; post VNull; post anonymous])
      (boot unconfigured ∅ [Some network_down])
    = (Normal resps, st')
    /\ driver_calls (world st') = []
    /\ mongo (world st') = ∅
    /\ length resps = 3%nat
    /\ Forall (fun resp => res_id resp = None) resps.
Proof.
  destruct (unconfigured_never_calls_driver
              [post hi; post VNull; post anonymous]
              (boot unconfigured ∅ [Some network_down]) ltac:(vm_compute; reflexivity) ltac:(vm_compute; reflexivity) ltac:(vm_compute; reflexivity))
    as (resps & st' & Hrun & Hcalls & Hm & Hlen & Hall & _).
  exists resps, st'. repeat split; assumption.
Defined.

Lemma failed_connection_degrades_witness :
  connection_error (schedule (world (boot production ∅ [None; Some network_down])))
  = Some network_down
  /\ exists st',
       connectToMongoDB (boot production ∅ [None; Some network_down])
       = (Normal tt, st')
       /\ db (this st') = None
       /\ webhooksCollection (this st') = None
       /\ mongo (world st') = ∅
       /\ fst (health st')
          = Normal {| statusCode := 200;
                      body := HealthReport "OK" (clock (world st'))
                                "not connected" |}.
Proof.
  split; [reflexivity |].
  destruct (failed_connection_degrades (boot production ∅ [None; Some network_down])
              "mongodb://db.internal:27017/hooks" network_down
              ltac:(vm_compute; reflexivity) ltac:(vm_compute; reflexivity) ltac:(vm_compute; reflexivity))
    as (st' & Hrun & Hdb & Hwc & Hm & _ & _ & Hhealth).
  exists st'. split; [exact Hrun |]. split; [exact Hdb |].
  split; [exact Hwc |]. split; [exact Hm |]. exact (Hhealth ltac:(vm_compute; reflexivity)).
Defined.

Lemma restart_changes_nothing_witness :
  mongo (world (snd (connectToMongoDB restarted))) = mongo (world restarted)
  /\ webhooksCollection (this (snd (connectToMongoDB restarted)))
     = webhooksCollection (this (snd (connectToMongoDB (boot production ∅ [])))).
Proof.
  exact (restart_changes_nothing (boot production ∅ []) restarted
           "mongodb://db.internal:27017/hooks"
           ltac:(vm_compute; reflexivity) ltac:(vm_compute; reflexivity)
           ltac:(vm_compute; reflexivity) ltac:(vm_compute; reflexivity)
           ltac:(vm_compute; reflexivity) ltac:(vm_compute; reflexivity)).
Defined.

Lemma index_failure_keeps_collection_witness :
  database_name_accepted
    (resolveDatabaseName "mongodb://db.internal:27017/hooks") = true
  /\ exists st',
       connectToMongoDB
         (boot production ∅ [None; None; None; None; Some network_down])
       = (Normal tt, st')
       /\ webhooksCollection (this st')
          = Some {| collection_db := "hooks";
                    collectionName := "gpt-webhook-requests" |}
       /\ mongo (world st') !! ("hooks"%string, "gpt-webhook-requests"%string)
          = Some {| indexes := []; documents := [] |}
       /\ logged Stdout [LText "Continuing without database persistence..."] st'.
Proof.
  split; [reflexivity |].
  destruct (index_failure_keeps_collection
              (boot production ∅ [None; None; None; None; Some network_down])
              "mongodb://db.internal:27017/hooks" network_down []
              ltac:(vm_compute; reflexivity) ltac:(vm_compute; reflexivity) ltac:(vm_compute; reflexivity) ltac:(vm_compute; reflexivity) ltac:(vm_compute; reflexivity))
    as (st' & Hrun & Hwc & _ & Hm & _ & Hlog).
  exists st'. split; [exact Hrun |]. split; [exact Hwc |].
  split; [rewrite Hm; apply lookup_insert_eq | exact Hlog].
Defined.

Lemma extracted_name_is_a_match_witness :
  extractDatabaseName "mongodb://db.internal:27017/hooks?retryWrites=true"
  = Some "hooks"%string
  /\ all_name_chars "hooks" = true
  /\ exists pre post,
       "mongodb://db.internal:27017/hooks?retryWrites=true"%string
       = (pre ++ "/" ++ "hooks" ++ post)%string
       /\ ends_name post = true.
Proof.
  split; [reflexivity |].
  destruct (extracted_name_is_a_match
              "mongodb://db.internal:27017/hooks?retryWrites=true" "hooks" ltac:(vm_compute; reflexivity))
    as (_ & Hn & Hocc).
  split; [exact Hn | exact Hocc].
Defined.

Lemma database_name_resolved_witness :
  resolveDatabaseName
    ("mongodb://" ++ "root:pw@db.internal:27017" ++ "/" ++ "hooks"
       ++ "?authSource=admin")%string
  = "hooks"%string.
Proof.
  apply (database_name_resolved "root:pw@db.internal:27017" "hooks"
           "?authSource=admin"); try reflexivity.
  discriminate.
Defined.

Lemma database_name_defaults_witness :
  extractDatabaseName
    ("mongodb://" ++ "localhost:27017" ++ "/" ++ "?retryWrites=true")%string
  = None
  /\ resolveDatabaseName
       ("mongodb://" ++ "localhost:27017" ++ "/" ++ "?retryWrites=true")%string
     = "shared-db"%string.
Proof.
  apply (database_name_defaults "localhost:27017" "?retryWrites=true");
    reflexivity.
Defined.
